(** * Task-manager API: users, tasks and their request handlers

    A shallow embedding of the FastAPI/SQLAlchemy service:
    - [models/]   the two tables ([User.t], [Task.t]);
    - [schemas/]  the request bodies;
    - [backend/db.py]  the probing loops [generate_unique_slug] and
      [generate_unique_username];
    - [routers/user.py], [routers/task.py]  the eleven handlers;
    - [main.py]  how a handler's result becomes an HTTP response.

    Python [int] is [Z], [str] is [string], a table is the list of its rows
    in insertion order.  A handler is a computation over an [AsyncSession]
    that either returns a value or raises an exception. *)

From Stdlib Require Import ZArith List String Ascii Bool Lia.
Import ListNotations.
Open Scope string_scope.
Open Scope list_scope.
Open Scope Z_scope.

(** ** models/ *)

Module User.
(** Modelled from the spec: [models/user.py] is imported by the routers but
    is not among the sources.  The columns are those of the spec's data
    model (id, username, firstname, lastname, age, slug); no uniqueness
    constraint on username or slug is enforced by the table. *)
Record t := mk {
  id : Z;
  username : string;
  firstname : string;
  lastname : string;
  age : Z;
  slug : string
}.
End User.

Module Task.
Record t := mk {
  id : Z;
  title : string;
  content : string;
  priority : Z;
  user_id : Z
}.
End Task.

(** ** schemas/ *)

Module CreateUser.
Record t := mk {
  username : string;
  firstname : string;
  lastname : string;
  age : Z;
  slug : string
}.
End CreateUser.

Module UpdateUser.
Record t := mk {
  firstname : string;
  lastname : string;
  age : Z
}.
End UpdateUser.

Module CreateTask.
Record t := mk {
  title : string;
  content : string;
  priority : Z;
  user_id : Z
}.
End CreateTask.

Module UpdateTask.
Record t := mk {
  title : string;
  content : string;
  priority : Z
}.
End UpdateTask.

(** ** The relational store *)

Record Database := {
  users : list User.t;
  tasks : list Task.t
}.

Definition empty_db : Database := {| users := []; tasks := [] |}.

(** An [INTEGER PRIMARY KEY] left out of an insert gets one more than the
    largest key of the table, and 1 in an empty table. *)
Definition next_id (ids : list Z) : Z := fold_right Z.max 0 ids + 1.

(** The statements the handlers pass to [db.execute], indexed by what the
    handler reads off the result ([unit] for a write). *)
Inductive Statement : Type -> Type :=
| select_User : Statement (list User.t)
| select_User_where_id (user_id : Z) : Statement (list User.t)
| select_User_where_slug (slug : string) : Statement (list User.t)
| select_User_where_username (username : string) : Statement (list User.t)
| select_Task : Statement (list Task.t)
| select_Task_where_id (task_id : Z) : Statement (list Task.t)
| select_Task_where_user_id (user_id : Z) : Statement (list Task.t)
| insert_User (username firstname lastname : string) (age : Z) (slug : string)
    : Statement unit
| update_User_where_id (user_id : Z) (firstname lastname : string) (age : Z)
    (slug : string) : Statement unit
| delete_User_where_id (user_id : Z) : Statement unit
| insert_Task (title content : string) (priority user_id : Z) : Statement unit
| update_Task_where_id (task_id : Z) (title content : string) (priority : Z)
    : Statement unit
| delete_Task_where_id (task_id : Z) : Statement unit
| delete_Task_where_user_id (user_id : Z) : Statement unit.

Definition set_user (firstname lastname : string) (age : Z) (slug : string)
    (u : User.t) : User.t :=
  User.mk (User.id u) (User.username u) firstname lastname age slug.

Definition set_task (title content : string) (priority : Z) (t : Task.t)
    : Task.t :=
  Task.mk (Task.id t) title content priority (Task.user_id t).

(** What a statement reads and what it leaves in the tables. *)
Definition run {A} (st : Statement A) (db : Database) : A * Database :=
  match st in Statement T return T * Database with
  | select_User => (users db, db)
  | select_User_where_id uid =>
      (filter (fun u => User.id u =? uid) (users db), db)
  | select_User_where_slug s =>
      (filter (fun u => String.eqb (User.slug u) s) (users db), db)
  | select_User_where_username s =>
      (filter (fun u => String.eqb (User.username u) s) (users db), db)
  | select_Task => (tasks db, db)
  | select_Task_where_id tid =>
      (filter (fun t => Task.id t =? tid) (tasks db), db)
  | select_Task_where_user_id uid =>
      (filter (fun t => Task.user_id t =? uid) (tasks db), db)
  | insert_User username firstname lastname age slug =>
      (tt, {| users := users db ++
                [User.mk (next_id (map User.id (users db)))
                         username firstname lastname age slug];
              tasks := tasks db |})
  | update_User_where_id uid firstname lastname age slug =>
      (tt, {| users := map (fun u => if User.id u =? uid
                                     then set_user firstname lastname age slug u
                                     else u) (users db);
              tasks := tasks db |})
  | delete_User_where_id uid =>
      (tt, {| users := filter (fun u => negb (User.id u =? uid)) (users db);
              tasks := tasks db |})
  | insert_Task title content priority user_id =>
      (tt, {| users := users db;
              tasks := tasks db ++
                [Task.mk (next_id (map Task.id (tasks db)))
                         title content priority user_id] |})
  | update_Task_where_id tid title content priority =>
      (tt, {| users := users db;
              tasks := map (fun t => if Task.id t =? tid
                                     then set_task title content priority t
                                     else t) (tasks db) |})
  | delete_Task_where_id tid =>
      (tt, {| users := users db;
              tasks := filter (fun t => negb (Task.id t =? tid)) (tasks db) |})
  | delete_Task_where_user_id uid =>
      (tt, {| users := users db;
              tasks := filter (fun t => negb (Task.user_id t =? uid))
                              (tasks db) |})
  end.

(** ** Exceptions *)

Inductive Exception :=
| HTTPException (status_code : Z) (detail : string)
| MultipleResultsFound
| OverflowError
| DBAPIError.

(** The classes named in [except] clauses.  [HTTPException] derives from
    [Exception], as every exception raised here does. *)
Inductive ExceptionClass := cls_Exception | cls_HTTPException.

Definition isinstance (e : Exception) (c : ExceptionClass) : bool :=
  match c, e with
  | cls_Exception, _ => true
  | cls_HTTPException, HTTPException _ _ => true
  | cls_HTTPException, _ => false
  end.

Definition HTTP_200_OK : Z := 200.
Definition HTTP_201_CREATED : Z := 201.
Definition HTTP_404_NOT_FOUND : Z := 404.

(** ** The session *)

Inductive Event :=
| Executed {A} (st : Statement A)
| Committed
| Faulted
| RolledBack
| Logged (message : string) (subject : option Z) (e : Exception).

(** [committed] is what the database holds durably, [working] what the
    in-flight transaction sees.  [faults] schedules the unexpected failures of
    the store: each statement and each commit takes the head of the list and
    fails when it is [true]; an exhausted list means no further failure. *)
Record AsyncSession := {
  committed : Database;
  working : Database;
  faults : list bool;
  trace : list Event
}.

Inductive outcome (A : Type) :=
| Return (a : A)
| Raise (e : Exception).
Arguments Return {A} a.
Arguments Raise {A} e.

Definition io (A : Type) : Type := AsyncSession -> outcome A * AsyncSession.

Definition ret {A} (a : A) : io A := fun s => (Return a, s).

Definition raise {A} (e : Exception) : io A := fun s => (Raise e, s).

Definition bind {A B} (m : io A) (k : A -> io B) : io B :=
  fun s => match m s with
           | (Return a, s') => k a s'
           | (Raise e, s') => (Raise e, s')
           end.

Notation "x <- m ;; k" := (bind m (fun x => k))
  (at level 61, m at next level, right associativity).
Notation "m ;;; k" := (bind m (fun _ => k))
  (at level 61, right associativity).

(** [try: body except c1: h1 except c2: h2 ...]: the first clause whose class
    the exception is an instance of handles it; what a handler raises is not
    offered to the other clauses. *)
Fixpoint select_clause {A} (e : Exception)
    (clauses : list (ExceptionClass * (Exception -> io A)))
    : option (io A) :=
  match clauses with
  | [] => None
  | (c, h) :: rest => if isinstance e c then Some (h e) else select_clause e rest
  end.

Definition try_except {A} (body : io A)
    (clauses : list (ExceptionClass * (Exception -> io A))) : io A :=
  fun s => match body s with
           | (Return a, s') => (Return a, s')
           | (Raise e, s') =>
               match select_clause e clauses with
               | Some h => h s'
               | None => (Raise e, s')
               end
           end.

Definition record (ev : Event) (s : AsyncSession) : AsyncSession :=
  {| committed := committed s; working := working s;
     faults := faults s; trace := trace s ++ [ev] |}.

Definition take_fault (s : AsyncSession) : bool * AsyncSession :=
  match faults s with
  | [] => (false, s)
  | b :: rest =>
      (b, {| committed := committed s; working := working s;
             faults := rest; trace := trace s |})
  end.

(** The integers the driver can hand to the store: SQLite's INTEGER is a
    signed 64-bit value. *)
Definition int64 (z : Z) : bool := (- 2 ^ 63 <=? z) && (z <? 2 ^ 63).

(** Whether every integer a statement binds fits.  The schemas and the path
    parameters are Python [int], which is unbounded; a key that the store
    assigns itself is not bound. *)
Definition bindable {A} (st : Statement A) : bool :=
  match st with
  | select_User | select_Task => true
  | select_User_where_slug _ | select_User_where_username _ => true
  | select_User_where_id uid => int64 uid
  | select_Task_where_id tid => int64 tid
  | select_Task_where_user_id uid => int64 uid
  | insert_User _ _ _ age _ => int64 age
  | update_User_where_id uid _ _ age _ => int64 uid && int64 age
  | delete_User_where_id uid => int64 uid
  | insert_Task _ _ priority user_id => int64 priority && int64 user_id
  | update_Task_where_id tid _ _ priority => int64 tid && int64 priority
  | delete_Task_where_id tid => int64 tid
  | delete_Task_where_user_id uid => int64 uid
  end.

(** [await db.execute(st)]: binding an integer that does not fit raises
    [OverflowError] before the store is reached; otherwise the statement
    runs, unless the schedule makes the store fail. *)
Definition execute {A} (st : Statement A) : io A :=
  fun s =>
    if bindable st then
      let (failed, s1) := take_fault s in
      if failed then (Raise DBAPIError, record Faulted s1)
      else
        let (a, db') := run st (working s1) in
        (Return a,
         {| committed := committed s1; working := db';
            faults := faults s1; trace := trace s1 ++ [Executed st] |})
    else (Raise OverflowError, record Faulted s).

(** [await db.commit()] *)
Definition commit : io unit :=
  fun s =>
    let (failed, s1) := take_fault s in
    if failed then (Raise DBAPIError, record Faulted s1)
    else
      (Return tt,
       {| committed := working s1; working := working s1;
          faults := faults s1; trace := trace s1 ++ [Committed] |}).

(** [await db.rollback()] *)
Definition rollback : io unit :=
  fun s =>
    (Return tt,
     {| committed := committed s; working := committed s;
        faults := faults s; trace := trace s ++ [RolledBack] |}).

(** [logger.error(f"...")] *)
Definition logger_error (message : string) (subject : option Z)
    (e : Exception) : io unit :=
  fun s => (Return tt, record (Logged message subject e) s).

(** Reading a result. *)
Definition scalars_all {A} (rows : list A) : list A := rows.

Definition scalar {A} (rows : list A) : option A := hd_error rows.

Definition scalar_one_or_none {A} (rows : list A) : io (option A) :=
  match rows with
  | [] => ret None
  | [x] => ret (Some x)
  | _ :: _ :: _ => raise MultipleResultsFound
  end.

Definition is_empty {A} (l : list A) : bool :=
  match l with [] => true | _ :: _ => false end.

(** ** routers/ *)

Module Confirmation.
(** The dictionary [{'status_code': ..., 'transaction': ...}] a writing
    handler returns. *)
Record t := mk {
  status_code : Z;
  transaction : string
}.
End Confirmation.

Definition internal_server_error : Exception :=
  HTTPException 500 "Internal Server Error".

Section Routers.

(** [slugify] of the python-slugify package: not code of this repository,
    so the handlers are stated for any such function. *)
Variable slugify : string -> string.

(** *** routers/user.py *)

Definition all_users : io (list User.t) :=
  try_except
    (result <- execute select_User ;;
     let users := scalars_all result in
     if is_empty users
     then raise (HTTPException HTTP_404_NOT_FOUND "There are no users")
     else ret users)
    [(cls_Exception, fun e =>
        logger_error "Error fetching all users" None e ;;;
        raise internal_server_error)].

Definition create_user (create_user : CreateUser.t) : io Confirmation.t :=
  try_except
    (execute (insert_User (CreateUser.username create_user)
                          (CreateUser.firstname create_user)
                          (CreateUser.lastname create_user)
                          (CreateUser.age create_user)
                          (slugify (CreateUser.firstname create_user))) ;;;
     commit ;;;
     ret (Confirmation.mk HTTP_201_CREATED "Successful"))
    [(cls_Exception, fun e =>
        rollback ;;;
        logger_error "Error creating user" None e ;;;
        raise internal_server_error)].

Definition user_by_id (user_id : Z) : io User.t :=
  try_except
    (result <- execute (select_User_where_id user_id) ;;
     match scalar result with
     | None => raise (HTTPException HTTP_404_NOT_FOUND "User not found")
     | Some user => ret user
     end)
    [(cls_Exception, fun e =>
        logger_error "Error fetching user by ID" (Some user_id) e ;;;
        raise internal_server_error)].

Definition update_user (user_id : Z) (update_user_model : UpdateUser.t)
    : io Confirmation.t :=
  try_except
    (result <- execute (select_User_where_id user_id) ;;
     match scalar result with
     | None => raise (HTTPException HTTP_404_NOT_FOUND "User not found")
     | Some _ =>
         execute (update_User_where_id user_id
                    (UpdateUser.firstname update_user_model)
                    (UpdateUser.lastname update_user_model)
                    (UpdateUser.age update_user_model)
                    (slugify (UpdateUser.firstname update_user_model))) ;;;
         commit ;;;
         ret (Confirmation.mk HTTP_200_OK "User update is successful")
     end)
    [(cls_Exception, fun e =>
        rollback ;;;
        logger_error "Error updating user" (Some user_id) e ;;;
        raise internal_server_error)].

Definition delete_user (user_id : Z) : io Confirmation.t :=
  try_except
    (result <- execute (select_User_where_id user_id) ;;
     match scalar result with
     | None => raise (HTTPException HTTP_404_NOT_FOUND "User not found")
     | Some _ =>
         execute (delete_Task_where_user_id user_id) ;;;
         execute (delete_User_where_id user_id) ;;;
         commit ;;;
         ret (Confirmation.mk HTTP_200_OK
                "User and associated tasks delete is successful")
     end)
    [(cls_Exception, fun e =>
        rollback ;;;
        logger_error "Error deleting user" (Some user_id) e ;;;
        raise internal_server_error)].

Definition tasks_by_user_id (user_id : Z) : io (list Task.t) :=
  try_except
    (result <- execute (select_User_where_id user_id) ;;
     match scalar result with
     | None => raise (HTTPException HTTP_404_NOT_FOUND "User not found")
     | Some _ =>
         result <- execute (select_Task_where_user_id user_id) ;;
         ret (scalars_all result)
     end)
    [(cls_Exception, fun e =>
        logger_error "Error fetching tasks for user" (Some user_id) e ;;;
        raise internal_server_error)].

(** *** routers/task.py *)

Definition all_tasks : io (list Task.t) :=
  try_except
    (result <- execute select_Task ;;
     let tasks := scalars_all result in
     if is_empty tasks
     then raise (HTTPException HTTP_404_NOT_FOUND "There are no tasks")
     else ret tasks)
    [(cls_Exception, fun e =>
        logger_error "Error fetching all tasks" None e ;;;
        raise internal_server_error)].

Definition create_task (create_task : CreateTask.t) : io Confirmation.t :=
  try_except
    (result <- execute (select_User_where_id (CreateTask.user_id create_task)) ;;
     match scalar result with
     | None => raise (HTTPException HTTP_404_NOT_FOUND "User was not found")
     | Some _ =>
         execute (insert_Task (CreateTask.title create_task)
                              (CreateTask.content create_task)
                              (CreateTask.priority create_task)
                              (CreateTask.user_id create_task)) ;;;
         commit ;;;
         ret (Confirmation.mk HTTP_201_CREATED "Successful")
     end)
    [(cls_HTTPException, fun he => raise he);
     (cls_Exception, fun e =>
        rollback ;;;
        logger_error "Error creating task" None e ;;;
        raise internal_server_error)].

Definition task_by_id (task_id : Z) : io Task.t :=
  try_except
    (result <- execute (select_Task_where_id task_id) ;;
     match scalar result with
     | None => raise (HTTPException HTTP_404_NOT_FOUND "Task not found")
     | Some task => ret task
     end)
    [(cls_Exception, fun e =>
        logger_error "Error fetching task by ID" (Some task_id) e ;;;
        raise internal_server_error)].

Definition update_task (task_id : Z) (update_task_model : UpdateTask.t)
    : io Confirmation.t :=
  try_except
    (result <- execute (select_Task_where_id task_id) ;;
     match scalar result with
     | None => raise (HTTPException HTTP_404_NOT_FOUND "Task not found")
     | Some _ =>
         execute (update_Task_where_id task_id
                    (UpdateTask.title update_task_model)
                    (UpdateTask.content update_task_model)
                    (UpdateTask.priority update_task_model)) ;;;
         commit ;;;
         ret (Confirmation.mk HTTP_200_OK "Task update is successful")
     end)
    [(cls_Exception, fun e =>
        rollback ;;;
        logger_error "Error updating task" (Some task_id) e ;;;
        raise internal_server_error)].

Definition delete_task (task_id : Z) : io Confirmation.t :=
  try_except
    (result <- execute (select_Task_where_id task_id) ;;
     match scalar result with
     | None => raise (HTTPException HTTP_404_NOT_FOUND "Task not found")
     | Some _ =>
         execute (delete_Task_where_id task_id) ;;;
         commit ;;;
         ret (Confirmation.mk HTTP_200_OK "Task delete is successful")
     end)
    [(cls_Exception, fun e =>
        rollback ;;;
        logger_error "Error deleting task" (Some task_id) e ;;;
        raise internal_server_error)].

(** ** main.py: from a request to a response *)

Inductive Request :=
| GET_user
| POST_user_create (body : CreateUser.t)
| GET_user_id (user_id : Z)
| PUT_user_update (user_id : Z) (body : UpdateUser.t)
| DELETE_user_delete (user_id : Z)
| GET_user_tasks (user_id : Z)
| GET_task
| POST_task_create (body : CreateTask.t)
| GET_task_id (task_id : Z)
| PUT_task_update (task_id : Z) (body : UpdateTask.t)
| DELETE_task_delete (task_id : Z).

(** What the route decorators declare.  None of them passes
    [status_code], so [declared_status] is [None] on every route. *)
Record Route := {
  verb : string;
  path : string;
  declared_status : option Z
}.

Definition route_of (req : Request) : Route :=
  match req with
  | GET_user => Build_Route "GET" "/user/" None
  | POST_user_create _ => Build_Route "POST" "/user/create" None
  | GET_user_id _ => Build_Route "GET" "/user/{user_id}" None
  | PUT_user_update _ _ => Build_Route "PUT" "/user/update/{user_id}" None
  | DELETE_user_delete _ =>
      Build_Route "DELETE" "/user/delete/{user_id}" None
  | GET_user_tasks _ => Build_Route "GET" "/user/{user_id}/tasks" None
  | GET_task => Build_Route "GET" "/task/" None
  | POST_task_create _ => Build_Route "POST" "/task/create" None
  | GET_task_id _ => Build_Route "GET" "/task/{task_id}" None
  | PUT_task_update _ _ => Build_Route "PUT" "/task/update/{task_id}" None
  | DELETE_task_delete _ =>
      Build_Route "DELETE" "/task/delete/{task_id}" None
  end.

Inductive Payload :=
| UserList (l : list User.t)
| UserDict (u : User.t)
| TaskList (l : list Task.t)
| TaskDict (t : Task.t)
| Confirm (c : Confirmation.t).

Definition returning {A} (wrap : A -> Payload) (h : io A) : io Payload :=
  a <- h ;; ret (wrap a).

Definition endpoint (req : Request) : io Payload :=
  match req with
  | GET_user => returning UserList all_users
  | POST_user_create body => returning Confirm (create_user body)
  | GET_user_id uid => returning UserDict (user_by_id uid)
  | PUT_user_update uid body => returning Confirm (update_user uid body)
  | DELETE_user_delete uid => returning Confirm (delete_user uid)
  | GET_user_tasks uid => returning TaskList (tasks_by_user_id uid)
  | GET_task => returning TaskList all_tasks
  | POST_task_create body => returning Confirm (create_task body)
  | GET_task_id tid => returning TaskDict (task_by_id tid)
  | PUT_task_update tid body => returning Confirm (update_task tid body)
  | DELETE_task_delete tid => returning Confirm (delete_task tid)
  end.

Inductive Content :=
| JSON (p : Payload)
| JSON_detail (detail : string)
| PlainText (text : string).

Record Response := {
  status : Z;
  content : Content
}.

(** A returned value is sent with the route's declared status, 200 when
    none is declared; an [HTTPException] goes through
    [custom_http_exception_handler] and is sent with its own status and
    its detail; anything else is the server's plain 500. *)
Definition respond (r : Route) (o : outcome Payload) : Response :=
  match o with
  | Return p =>
      {| status := match declared_status r with Some c => c | None => 200 end;
         content := JSON p |}
  | Raise (HTTPException status_code detail) =>
      {| status := status_code; content := JSON_detail detail |}
  | Raise _ =>
      {| status := 500; content := PlainText "Internal Server Error" |}
  end.

Record Served := {
  response : Response;
  store : Database;
  events : list Event
}.

(** One request: [get_async_db] opens a session on the database, the
    handler runs in it, the session is closed.  What was not committed is
    gone with the session. *)
Definition serve (req : Request) (db : Database) (fl : list bool)
    : Served :=
  let (o, s) := endpoint req {| committed := db; working := db;
                                faults := fl; trace := [] |} in
  {| response := respond (route_of req) o;
     store := committed s;
     events := trace s |}.

End Routers.

(** ** backend/db.py: probing for a free slug or username *)

Definition hex_alphabet : list ascii :=
  ["0"; "1"; "2"; "3"; "4"; "5"; "6"; "7";
   "8"; "9"; "a"; "b"; "c"; "d"; "e"; "f"]%char.

Definition hex_digit (d : Z) : ascii := nth (Z.to_nat d) hex_alphabet "0"%char.

Fixpoint hex_digits (width : nat) (n : Z) (acc : string) : string :=
  match width with
  | O => acc
  | S w => hex_digits w (n / 16) (String (hex_digit (n mod 16)) acc)
  end.

(** [UUID.hex]: the 128-bit integer of the UUID as 32 lowercase hexadecimal
    digits. *)
Definition UUID_hex (int : Z) : string := hex_digits 32 int "".

(** [uuid.uuid4().hex[:8]] *)
Definition short_suffix (int : Z) : string := substring 0 8 (UUID_hex int).

(** The [while True] loops.  [uuid4 k] is the integer of the UUID that the
    [k]-th call of [uuid.uuid4()] draws and [calls] counts the calls made so
    far; [fuel] bounds the number of iterations, and [None] is returned only
    when it is used up. *)
Fixpoint generate_unique_slug_from (fuel : nat) (uuid4 : nat -> Z)
    (calls : nat) (counter : Z) (base_slug : string) : io (option string) :=
  match fuel with
  | O => ret None
  | S fuel' =>
      let slug := if 1 <? counter
                  then (base_slug ++ "-" ++ short_suffix (uuid4 calls))%string
                  else base_slug in
      let calls' := if 1 <? counter then S calls else calls in
      result <- execute (select_User_where_slug slug) ;;
      found <- scalar_one_or_none result ;;
      match found with
      | None => ret (Some slug)
      | Some _ =>
          generate_unique_slug_from fuel' uuid4 calls' (counter + 1) base_slug
      end
  end.

Definition generate_unique_slug (fuel : nat) (uuid4 : nat -> Z)
    (base_slug : string) : io (option string) :=
  generate_unique_slug_from fuel uuid4 0 1 base_slug.

Fixpoint generate_unique_username_from (fuel : nat) (uuid4 : nat -> Z)
    (calls : nat) (counter : Z) (base_username : string)
    : io (option string) :=
  match fuel with
  | O => ret None
  | S fuel' =>
      let username :=
        if 1 <? counter
        then (base_username ++ "-" ++ short_suffix (uuid4 calls))%string
        else base_username in
      let calls' := if 1 <? counter then S calls else calls in
      result <- execute (select_User_where_username username) ;;
      found <- scalar_one_or_none result ;;
      match found with
      | None => ret (Some username)
      | Some _ =>
          generate_unique_username_from fuel' uuid4 calls' (counter + 1)
                                        base_username
      end
  end.

Definition generate_unique_username (fuel : nat) (uuid4 : nat -> Z)
    (base_username : string) : io (option string) :=
  generate_unique_username_from fuel uuid4 0 1 base_username.

(** ** Vocabulary of the statements *)

(** No failure of the store is scheduled. *)
Definition calm (fl : list bool) : Prop := forallb negb fl = true.

Definition open_session (db : Database) (fl : list bool) : AsyncSession :=
  {| committed := db; working := db; faults := fl; trace := [] |}.

Definition is_hex (c : ascii) : bool :=
  existsb (fun h => Ascii.eqb c h) hex_alphabet.

Fixpoint all_hex (s : string) : bool :=
  match s with
  | EmptyString => true
  | String c rest => is_hex c && all_hex rest
  end.

Definition slug_holders (db : Database) (s : string) : list User.t :=
  filter (fun u => String.eqb (User.slug u) s) (users db).

Definition username_holders (db : Database) (s : string) : list User.t :=
  filter (fun u => String.eqb (User.username u) s) (users db).

(** The values the loop probes: the base first, then the base extended with
    the suffix of each draw in turn. *)
Definition candidate (base : string) (uuid4 : nat -> Z) (k : nat) : string :=
  match k with
  | O => base
  | S j => (base ++ "-" ++ short_suffix (uuid4 j))%string
  end.

(** The session after a statement that read without failing. *)
Definition after_select {A} (st : Statement A) (s : AsyncSession)
    : AsyncSession :=
  {| committed := committed s; working := working s;
     faults := tl (faults s); trace := trace s ++ [Executed st] |}.

(** What the probing loop [gen] does on a store whose rows holding a value
    are given by [holders]: it never returns a held value; a free base is
    returned as it is; a base held by one row is extended with the suffix of
    the first draw whose candidate is free, when every candidate before it is
    held by one row; the first probed value that several rows hold, the base
    or a later candidate, makes the lookup raise. *)
Definition probe_contract
    (holders : Database -> string -> list User.t)
    (gen : nat -> (nat -> Z) -> string -> io (option string))
    (uuid4 : nat -> Z) (base : string) (db : Database) (fl : list bool)
    (k : nat) : Prop :=
  (forall fuel v,
     fst (gen fuel uuid4 base (open_session db fl)) = Return (Some v) ->
     holders db v = [])
  /\ (holders db base = [] ->
      forall fuel,
        fst (gen (S fuel) uuid4 base (open_session db fl))
        = Return (Some base))
  /\ ((forall j, (j <= k)%nat ->
         List.length (holders db (candidate base uuid4 j)) = 1%nat) ->
      holders db (candidate base uuid4 (S k)) = [] ->
      forall fuel, (k + 2 <= fuel)%nat ->
        fst (gen fuel uuid4 base (open_session db fl))
        = Return (Some (base ++ "-" ++ short_suffix (uuid4 k))%string))
  /\ ((forall j, (j < k)%nat ->
         List.length (holders db (candidate base uuid4 j)) = 1%nat) ->
      (2 <= List.length (holders db (candidate base uuid4 k)))%nat ->
      forall fuel, (k + 1 <= fuel)%nat ->
        fst (gen fuel uuid4 base (open_session db fl))
        = Raise MultipleResultsFound).

Definition succeeded (r : Response) : bool :=
  match content r with JSON _ => true | _ => false end.

(** The [status_code] entry of a returned confirmation, if the response is
    one. *)
Definition confirmed_status (r : Response) : option Z :=
  match content r with
  | JSON (Confirm c) => Some (Confirmation.status_code c)
  | _ => None
  end.

Definition confirmation_of (req : Request) : option Z :=
  match req with
  | POST_user_create _ | POST_task_create _ => Some 201
  | PUT_user_update _ _ | DELETE_user_delete _
  | PUT_task_update _ _ | DELETE_task_delete _ => Some 200
  | _ => None
  end.

Definition generic_500 : Response :=
  {| status := 500; content := JSON_detail "Internal Server Error" |}.



Definition is_rollback (ev : Event) : bool :=
  match ev with RolledBack => true | _ => false end.



(** A stand-in for [slugify] to run the handlers on examples: ASCII letters
    are lowered, every other character that is not a digit becomes a hyphen.
    On words of ASCII letters and digits this is what python-slugify
    returns. *)
Definition lower_or_hyphen (c : ascii) : ascii :=
  let n := nat_of_ascii c in
  if (65 <=? n)%nat && (n <=? 90)%nat then ascii_of_nat (n + 32)
  else if ((97 <=? n)%nat && (n <=? 122)%nat)
          || ((48 <=? n)%nat && (n <=? 57)%nat) then c
  else "-"%char.

Fixpoint ascii_slugify (s : string) : string :=
  match s with
  | EmptyString => EmptyString
  | String c rest => String (lower_or_hyphen c) (ascii_slugify rest)
  end.

Definition alice : CreateUser.t := CreateUser.mk "alice" "Alice" "Doe" 30 "x".
Definition alice_row : User.t := User.mk 1 "alice" "Alice" "Doe" 30 "alice".
Definition t1_row : Task.t := Task.mk 1 "T1" "C1" 1 1.
Definition alice_db : Database := {| users := [alice_row]; tasks := [t1_row] |}.

(** The store after two create-user requests with the same body. *)
Definition two_alices : Database :=
  store (serve ascii_slugify (POST_user_create alice)
           (store (serve ascii_slugify (POST_user_create alice) empty_db []))
           []).

Definition sample_uuid4 (k : nat) : Z := 0x1234abcd000000000000000000000000.

(** ** Vocabulary of the further properties *)

(** The tables a request leaves behind when it succeeds: the result of the
    statements its handler executes before it commits. *)
Definition effect (slugify : string -> string) (req : Request)
    (db : Database) : Database :=
  match req with
  | POST_user_create body =>
      snd (run (insert_User (CreateUser.username body)
                            (CreateUser.firstname body)
                            (CreateUser.lastname body)
                            (CreateUser.age body)
                            (slugify (CreateUser.firstname body))) db)
  | PUT_user_update uid body =>
      snd (run (update_User_where_id uid
                  (UpdateUser.firstname body) (UpdateUser.lastname body)
                  (UpdateUser.age body)
                  (slugify (UpdateUser.firstname body))) db)
  | DELETE_user_delete uid =>
      snd (run (delete_User_where_id uid)
               (snd (run (delete_Task_where_user_id uid) db)))
  | POST_task_create body =>
      snd (run (insert_Task (CreateTask.title body) (CreateTask.content body)
                            (CreateTask.priority body)
                            (CreateTask.user_id body)) db)
  | PUT_task_update tid body =>
      snd (run (update_Task_where_id tid
                  (UpdateTask.title body) (UpdateTask.content body)
                  (UpdateTask.priority body)) db)
  | DELETE_task_delete tid => snd (run (delete_Task_where_id tid) db)
  | GET_user | GET_user_id _ | GET_user_tasks _ | GET_task | GET_task_id _ =>
      db
  end.

Definition user_exists (db : Database) (uid : Z) : Prop :=
  exists u, In u (users db) /\ User.id u = uid.

Definition task_exists (db : Database) (tid : Z) : Prop :=
  exists t, In t (tasks db) /\ Task.id t = tid.

(** No two rows of a table share a primary key. *)
Definition keys_unique (db : Database) : Prop :=
  NoDup (map User.id (users db)) /\ NoDup (map Task.id (tasks db)).

(** Every task row references a user row. *)
Definition tasks_owned (db : Database) : Prop :=
  forall t, In t (tasks db) -> user_exists db (Task.user_id t).

Definition bob : UpdateUser.t := UpdateUser.mk "Bob" "Roe" 31.

(** ** backend/db.py: the data check run at startup *)

(** [session.add(User(...))] and the INSERT that the next
    [session.commit()] flushes first.  The value is the id the row gets,
    which the object carries afterwards. *)
Definition add_User (username firstname lastname : string) (age : Z)
    (slug : string) : io Z :=
  fun s =>
    let key := next_id (map User.id (users (working s))) in
    match execute (insert_User username firstname lastname age slug) s with
    | (Return _, s') => (Return key, s')
    | (Raise e, s') => (Raise e, s')
    end.

Definition add_Task (title content : string) (priority user_id : Z)
    : io Z :=
  fun s =>
    let key := next_id (map Task.id (tasks (working s))) in
    match execute (insert_Task title content priority user_id) s with
    | (Return _, s') => (Return key, s')
    | (Raise e, s') => (Raise e, s')
    end.

(** What the last log line of [test_data_operations] reports. *)
Inductive TestReport :=
| user_and_tasks (username : string) (n_tasks : nat)
| user_not_found.

(** The body of [test_data_operations], in its session.  The two probes draw
    from [uuid4_username] and [uuid4_slug]; [None] is returned only when a
    probe uses up [fuel].  The two progress lines logged after the commits
    are not part of the value. *)
Definition test_data_operations_body (fuel : nat)
    (uuid4_username uuid4_slug : nat -> Z) : io (option TestReport) :=
  try_except
    (let base_username := "testuser" in
     let base_slug := "testuser" in
     username <- generate_unique_username fuel uuid4_username base_username ;;
     match username with
     | None => ret None
     | Some username =>
         slug <- generate_unique_slug fuel uuid4_slug base_slug ;;
         match slug with
         | None => ret None
         | Some slug =>
             new_user_id <- add_User username "Test" "User" 30 slug ;;
             commit ;;;
             add_Task "Test Task" "This is a test task" 1 new_user_id ;;;
             commit ;;;
             result <- execute (select_User_where_id new_user_id) ;;
             user <- scalar_one_or_none result ;;
             match user with
             | Some user =>
                 tasks <- execute (select_Task_where_user_id (User.id user)) ;;
                 ret (Some (user_and_tasks (User.username user)
                                           (List.length (scalars_all tasks))))
             | None => ret (Some user_not_found)
             end
         end
     end)
    [(cls_Exception, fun e =>
        logger_error "Ошибка при тестировании операций с данными" None e ;;;
        raise e)].

(** [test_data_operations]: the body in a session of its own; what is
    committed stays, the rest goes with the session. *)
Definition test_data_operations (fuel : nat)
    (uuid4_username uuid4_slug : nat -> Z) (db : Database) (fl : list bool)
    : outcome (option TestReport) * Database :=
  let (o, s) := test_data_operations_body fuel uuid4_username uuid4_slug
                  (open_session db fl) in
  (o, committed s).

Definition test_user (key : Z) (username slug : string) : User.t :=
  User.mk key username "Test" "User" 30 slug.

Definition test_task (key user_id : Z) : Task.t :=
  Task.mk key "Test Task" "This is a test task" 1 user_id.

Definition testuser_body : CreateUser.t :=
  CreateUser.mk "testuser" "Test" "User" 30 "testuser".

(** The store after two create-user requests for a user named testuser. *)
Definition two_testusers : Database :=
  store (serve ascii_slugify (POST_user_create testuser_body)
           (store (serve ascii_slugify (POST_user_create testuser_body)
                     empty_db []))
           []).

(** * Properties *)

Example serve_create_alice :
  store (serve ascii_slugify (POST_user_create alice) empty_db [])
  = {| users := [alice_row]; tasks := [] |}.
Proof. reflexivity. Qed.

Example short_suffix_example :
  short_suffix 0x1234abcd000000000000000000000000 = "1234abcd".
Proof. reflexivity. Qed.

(** The scenario of the specification, as the code runs it: alice is
    created, then her task; her task list holds it; she is deleted; the
    lookup of her task then answers 500. *)
Example scenario_alice :
  let s1 := serve ascii_slugify (POST_user_create alice) empty_db [] in
  let s2 := serve ascii_slugify
              (POST_task_create (CreateTask.mk "T1" "C1" 1 1)) (store s1) [] in
  let s3 := serve ascii_slugify (GET_user_tasks 1) (store s2) [] in
  let s4 := serve ascii_slugify (DELETE_user_delete 1) (store s2) [] in
  let s5 := serve ascii_slugify (GET_task_id 1) (store s4) [] in
  store s2 = alice_db
  /\ content (response s3) = JSON (TaskList [t1_row])
  /\ status (response s4) = 200
  /\ store s4 = empty_db
  /\ status (response s5) = 500.
Proof. repeat split. Qed.

(** ** Rows and lookups *)

Lemma filter_none {A} (p : A -> bool) (l : list A) :
  (forall x, In x l -> p x = false) -> filter p l = [].
Proof.
  induction l as [|x l IH]; intros H; [reflexivity|].
  cbn. rewrite (H x (or_introl eq_refl)). apply IH.
  intros y Hy. apply H. now right.
Qed.

Lemma no_user_rows (db : Database) (uid : Z) :
  (forall u, In u (users db) -> User.id u <> uid) ->
  fst (run (select_User_where_id uid) db) = [].
Proof.
  intros H. cbn. apply filter_none. intros u Hu.
  apply Z.eqb_neq. now apply H.
Qed.

Lemma no_task_rows (db : Database) (tid : Z) :
  (forall t, In t (tasks db) -> Task.id t <> tid) ->
  fst (run (select_Task_where_id tid) db) = [].
Proof.
  intros H. cbn. apply filter_none. intros t Ht.
  apply Z.eqb_neq. now apply H.
Qed.

Lemma calm_cons (b : bool) (fl : list bool) :
  calm (b :: fl) -> b = false /\ calm fl.
Proof.
  unfold calm. cbn. intros H. apply andb_true_iff in H.
  destruct H as [Hb Hfl]. split; [now destruct b | exact Hfl].
Qed.

Lemma filter_updated_tasks (tid : Z) (a b : string) (c : Z) (l : list Task.t) :
  filter (fun t => Task.id t =? tid)
         (map (fun t => if Task.id t =? tid then set_task a b c t else t) l)
  = map (set_task a b c) (filter (fun t => Task.id t =? tid) l).
Proof.
  induction l as [|t l IH]; [reflexivity|].
  cbn. destruct (Task.id t =? tid) eqn:E; cbn; rewrite E, IH; reflexivity.
Qed.

Lemma key_determines_row {A} (key : A -> Z) (l : list A) (x y : A) :
  NoDup (map key l) -> In x l -> In y l -> key x = key y -> x = y.
Proof.
  induction l as [|z l IH]; cbn; intros Hnd Hx Hy Hk; [contradiction|].
  inversion Hnd as [|k ks Hnotin Hnd']; subst.
  destruct Hx as [-> | Hx], Hy as [-> | Hy]; auto.
  - exfalso. apply Hnotin. rewrite Hk. now apply in_map.
  - exfalso. apply Hnotin. rewrite <- Hk. now apply in_map.
Qed.

(** Under a calm schedule the next store operation does not fail. *)
Ltac next_is_calm fl H :=
  destruct fl as [|? fl];
  [|apply calm_cons in H; let E := fresh "E" in destruct H as [E H]; subst].

(** ** The suffix of a draw *)

Arguments short_suffix : simpl never.
Arguments int64 : simpl never.

Lemma is_hex_digit (d : Z) : is_hex (hex_digit d) = true.
Proof.
  unfold hex_digit. generalize (Z.to_nat d). intros n.
  do 16 (destruct n as [|n]; [reflexivity|]).
  destruct n; reflexivity.
Qed.

Lemma short_suffix_shape (int : Z) :
  String.length (short_suffix int) = 8%nat /\
  all_hex (short_suffix int) = true.
Proof.
  unfold short_suffix, UUID_hex.
  cbn [hex_digits substring String.length all_hex].
  split; [reflexivity|].
  rewrite !is_hex_digit. reflexivity.
Qed.

(** ** The probing loop, for either column *)

Section Probing.

Variable column : User.t -> string.
Variable select_where : string -> Statement (list User.t).
Variable loop : nat -> (nat -> Z) -> nat -> Z -> string -> io (option string).

Let holders (db : Database) (v : string) : list User.t :=
  filter (fun u => String.eqb (column u) v) (users db).

Hypothesis run_select : forall v db,
  run (select_where v) db = (holders db v, db).

Hypothesis bindable_select : forall v, bindable (select_where v) = true.

Hypothesis loop_O : forall uuid4 calls counter base,
  loop O uuid4 calls counter base = ret None.

Hypothesis loop_S : forall fuel uuid4 calls counter base,
  loop (S fuel) uuid4 calls counter base
  = (let v := if 1 <? counter
              then (base ++ "-" ++ short_suffix (uuid4 calls))%string
              else base in
     let calls' := if 1 <? counter then S calls else calls in
     result <- execute (select_where v) ;;
     found <- scalar_one_or_none result ;;
     match found with
     | None => ret (Some v)
     | Some _ => loop fuel uuid4 calls' (counter + 1) base
     end).

Lemma execute_select_calm (v : string) (s : AsyncSession) :
  calm (faults s) ->
  execute (select_where v) s
  = (Return (holders (working s) v), after_select (select_where v) s).
Proof.
  intros Hcalm. unfold execute, take_fault, after_select.
  rewrite bindable_select.
  destruct s as [c w fl tr]. cbn in *.
  destruct fl as [|b fl]; cbn.
  - rewrite run_select. reflexivity.
  - apply calm_cons in Hcalm. destruct Hcalm as [-> _].
    cbn. rewrite run_select. reflexivity.
Qed.

Lemma calm_after_select {A} (st : Statement A) (s : AsyncSession) :
  calm (faults s) -> calm (faults (after_select st s)).
Proof.
  cbn. destruct (faults s) as [|b fl]; [auto|].
  intros H. now apply calm_cons in H.
Qed.

(** One iteration under a calm schedule. *)
Lemma loop_step (fuel : nat) (uuid4 : nat -> Z) (calls : nat) (counter : Z)
    (base : string) (s : AsyncSession) :
  calm (faults s) ->
  let v := if 1 <? counter
           then (base ++ "-" ++ short_suffix (uuid4 calls))%string
           else base in
  let s' := after_select (select_where v) s in
  loop (S fuel) uuid4 calls counter base s
  = match holders (working s) v with
    | [] => (Return (Some v), s')
    | [_] => loop fuel uuid4 (if 1 <? counter then S calls else calls)
                  (counter + 1) base s'
    | _ :: _ :: _ => (Raise MultipleResultsFound, s')
    end.
Proof.
  intros Hcalm v s'. rewrite loop_S. fold v. cbv zeta. unfold bind at 1.
  rewrite (execute_select_calm v s Hcalm). fold s'.
  destruct (holders (working s) v) as [|x [|y l]]; reflexivity.
Qed.

(** Whatever the schedule, a returned value is held by no row. *)
Lemma loop_returns_free (uuid4 : nat -> Z) (base : string) (fuel : nat) :
  forall calls counter s v s',
    loop fuel uuid4 calls counter base s = (Return (Some v), s') ->
    holders (working s) v = [].
Proof.
  induction fuel as [|fuel IH]; intros calls counter s v s' H.
  - rewrite loop_O in H. discriminate H.
  - rewrite loop_S in H. cbv zeta in H.
    remember (if 1 <? counter
              then (base ++ "-" ++ short_suffix (uuid4 calls))%string
              else base) as v0 eqn:Ev0.
    remember (if 1 <? counter then S calls else calls) as calls' eqn:Ec.
    clear Ev0 Ec.
    unfold bind at 1 in H. unfold execute, take_fault in H.
    rewrite bindable_select in H.
    destruct s as [c w fl tr]. cbn in H |- *.
    destruct fl as [|[] fl]; cbn in H; try discriminate H;
      rewrite run_select in H;
      unfold bind at 1 in H;
      (destruct (holders w v0) as [|x [|y l]] eqn:E; cbn in H;
       [ injection H as <- _; exact E
       | apply IH in H; exact H
       | discriminate H ]).
Qed.

(** From the second iteration on: the first free candidate is returned. *)
Lemma loop_retries (uuid4 : nat -> Z) (base : string) (k : nat) :
  forall fuel calls counter s,
    1 < counter ->
    calm (faults s) ->
    (forall j, (j < k)%nat ->
       List.length (holders (working s)
                 (candidate base uuid4 (S (calls + j)))) = 1%nat) ->
    holders (working s) (candidate base uuid4 (S (calls + k))) = [] ->
    (k < fuel)%nat ->
    fst (loop fuel uuid4 calls counter base s)
    = Return (Some (candidate base uuid4 (S (calls + k)))).
Proof.
  induction k as [|k IH]; intros fuel calls counter s Hc Hcalm Hheld Hfree Hfuel.
  - destruct fuel as [|fuel]; [lia|].
    rewrite loop_step by exact Hcalm.
    apply Z.ltb_lt in Hc. rewrite Hc.
    rewrite Nat.add_0_r in Hfree |- *. cbn [candidate] in Hfree |- *.
    rewrite Hfree. reflexivity.
  - destruct fuel as [|fuel]; [lia|].
    rewrite loop_step by exact Hcalm.
    pose proof Hc as Hc'. apply Z.ltb_lt in Hc'. rewrite Hc'.
    pose proof (Hheld 0%nat ltac:(lia)) as H0.
    rewrite Nat.add_0_r in H0. cbn [candidate] in H0.
    destruct (holders (working s)
                (base ++ "-" ++ short_suffix (uuid4 calls))%string)
      as [|x [|y l]]; try discriminate H0.
    rewrite <- Nat.add_succ_comm.
    apply IH.
    + lia.
    + now apply calm_after_select.
    + intros j Hj. cbn [working after_select].
      rewrite Nat.add_succ_comm. apply Hheld. lia.
    + cbn [working after_select]. rewrite Nat.add_succ_comm. exact Hfree.
    + lia.
Qed.

(** From the second iteration on: the first candidate that several rows
    hold makes the lookup raise. *)
Lemma loop_retries_raise (uuid4 : nat -> Z) (base : string) (k : nat) :
  forall fuel calls counter s,
    1 < counter ->
    calm (faults s) ->
    (forall j, (j < k)%nat ->
       List.length (holders (working s)
                 (candidate base uuid4 (S (calls + j)))) = 1%nat) ->
    (2 <= List.length (holders (working s)
                         (candidate base uuid4 (S (calls + k)))))%nat ->
    (k < fuel)%nat ->
    fst (loop fuel uuid4 calls counter base s) = Raise MultipleResultsFound.
Proof.
  induction k as [|k IH]; intros fuel calls counter s Hc Hcalm Hheld Hmany Hfuel.
  - destruct fuel as [|fuel]; [lia|].
    rewrite loop_step by exact Hcalm.
    apply Z.ltb_lt in Hc. rewrite Hc.
    rewrite Nat.add_0_r in Hmany. cbn [candidate] in Hmany.
    destruct (holders (working s)
                (base ++ "-" ++ short_suffix (uuid4 calls))%string)
      as [|x [|y l]]; cbn in Hmany; try lia.
    reflexivity.
  - destruct fuel as [|fuel]; [lia|].
    rewrite loop_step by exact Hcalm.
    pose proof Hc as Hc'. apply Z.ltb_lt in Hc'. rewrite Hc'.
    pose proof (Hheld 0%nat ltac:(lia)) as H0.
    rewrite Nat.add_0_r in H0. cbn [candidate] in H0.
    destruct (holders (working s)
                (base ++ "-" ++ short_suffix (uuid4 calls))%string)
      as [|x [|y l]]; try discriminate H0.
    apply (IH fuel (S calls) (counter + 1)).
    + lia.
    + now apply calm_after_select.
    + intros j Hj. cbn [working after_select].
      rewrite Nat.add_succ_comm. apply Hheld. lia.
    + cbn [working after_select]. rewrite Nat.add_succ_comm. exact Hmany.
    + lia.
Qed.

Lemma loop_contract (uuid4 : nat -> Z) (base : string) (db : Database)
    (fl : list bool) (k : nat) :
  calm fl ->
  probe_contract holders (fun fuel uuid4 base => loop fuel uuid4 0%nat 1 base)
                 uuid4 base db fl k.
Proof.
  intros Hcalm. unfold probe_contract. repeat split.
  - intros fuel v H.
    destruct (loop fuel uuid4 0%nat 1 base (open_session db fl))
      as [o s'] eqn:E.
    cbn in H. subst o. now apply loop_returns_free in E.
  - intros Hfree fuel. rewrite loop_step by exact Hcalm.
    cbn. fold (holders db base). rewrite Hfree. reflexivity.
  - intros Hheld Hfree fuel Hfuel.
    destruct fuel as [|fuel]; [lia|].
    rewrite loop_step by exact Hcalm. cbn -[candidate].
    pose proof (Hheld 0%nat ltac:(lia)) as H0. cbn [candidate] in H0.
    fold (holders db base).
    destruct (holders db base) as [|x [|y l]]; try discriminate H0.
    apply (loop_retries uuid4 base k fuel 0%nat 2).
    + lia.
    + now apply (calm_after_select _ (open_session db fl)).
    + intros j Hj. cbn [working after_select open_session Nat.add].
      apply Hheld. lia.
    + exact Hfree.
    + lia.
  - intros Hheld Hmany fuel Hfuel.
    destruct fuel as [|fuel]; [lia|].
    rewrite loop_step by exact Hcalm. cbn -[candidate].
    fold (holders db base).
    destruct k as [|k].
    + cbn [candidate] in Hmany.
      destruct (holders db base) as [|x [|y l]]; cbn in Hmany; try lia.
      reflexivity.
    + pose proof (Hheld 0%nat ltac:(lia)) as H0. cbn [candidate] in H0.
      destruct (holders db base) as [|x [|y l]]; try discriminate H0.
      apply (loop_retries_raise uuid4 base k fuel 0%nat 2).
      * lia.
      * now apply (calm_after_select _ (open_session db fl)).
      * intros j Hj. cbn [working after_select open_session Nat.add].
        apply Hheld. lia.
      * exact Hmany.
      * lia.
Qed.

End Probing.

(** Unfolds a request down to the store operations of its handler. *)
Ltac unfold_request :=
  unfold serve, endpoint, returning,
    all_users, create_user, user_by_id, update_user, delete_user,
    tasks_by_user_id, all_tasks, create_task, task_by_id, update_task,
    delete_task, try_except, bind, execute, commit, rollback, logger_error,
    raise, ret, take_fault, record, internal_server_error.

(** Discharges the range checks of the statements with the hypotheses at
    hand. *)
Ltac in_range :=
  cbn [bindable];
  repeat match goal with
         | H : int64 _ = true |- _ => rewrite H
         end;
  cbn [andb].

(** Splits on whether each bound integer fits. *)
Ltac split_range :=
  cbn [bindable];
  repeat match goal with
         | |- context [int64 ?z] => destruct (int64 z); cbn [andb]
         end.

Section Handlers.

Variable slugify : string -> string.

Lemma user_by_id_missing (db : Database) (fl : list bool) (uid : Z) :
  (forall u, In u (users db) -> User.id u <> uid) ->
  response (serve slugify (GET_user_id uid) db fl) = generic_500.
Proof.
  intros H. apply no_user_rows in H. cbn in H. unfold_request.
  split_range; [|reflexivity].
  destruct fl as [|[] fl]; cbn; try rewrite H; reflexivity.
Qed.

Lemma task_by_id_missing (db : Database) (fl : list bool) (tid : Z) :
  (forall t, In t (tasks db) -> Task.id t <> tid) ->
  response (serve slugify (GET_task_id tid) db fl) = generic_500.
Proof.
  intros H. apply no_task_rows in H. cbn in H. unfold_request.
  split_range; [|reflexivity].
  destruct fl as [|[] fl]; cbn; try rewrite H; reflexivity.
Qed.

(** C1 (what the code does): looking up a user id, or a task id, that no
    row has does not answer 404.  The [HTTPException] raised for the
    missing row is caught by the handler's own [except Exception] clause
    and replaced by the generic 500, whatever the store does. *)
Theorem by_id_missing_answers_500 (db : Database) (fl : list bool)
    (uid tid : Z)
    (Huser : forall u, In u (users db) -> User.id u <> uid)
    (Htask : forall t, In t (tasks db) -> Task.id t <> tid) :
  response (serve slugify (GET_user_id uid) db fl) = generic_500 /\
  response (serve slugify (GET_task_id tid) db fl) = generic_500.
Proof.
  split; [now apply user_by_id_missing | now apply task_by_id_missing].
Qed.

(** C2 (what the code does): listing an empty table does not answer 404
    either, for the same reason: the 404 raised for the empty list is
    caught by [except Exception] and the generic 500 is answered. *)
Theorem empty_list_answers_500 (db1 db2 : Database) (fl : list bool)
    (Husers : users db1 = [])
    (Htasks : tasks db2 = []) :
  response (serve slugify GET_user db1 fl) = generic_500 /\
  response (serve slugify GET_task db2 fl) = generic_500.
Proof.
  unfold_request.
  split; destruct fl as [|[] fl]; cbn;
    try rewrite Husers; try rewrite Htasks; reflexivity.
Qed.

(** C3 (amended): creating a task for a user id that fits in 64 bits and
    that no user row has answers 404 "User was not found", executes nothing
    but the lookup, and leaves the store as it was. *)
Theorem create_task_unknown_user (db : Database) (fl : list bool)
    (body : CreateTask.t)
    (Huser : forall u, In u (users db) -> User.id u <> CreateTask.user_id body)
    (Hrange : int64 (CreateTask.user_id body) = true)
    (Hcalm : calm fl) :
  let r := serve slugify (POST_task_create body) db fl in
  response r = {| status := 404; content := JSON_detail "User was not found" |}
  /\ store r = db
  /\ events r = [Executed (select_User_where_id (CreateTask.user_id body))].
Proof.
  apply no_user_rows in Huser. cbn in Huser. unfold_request. in_range.
  destruct fl as [|b fl].
  - cbn. rewrite Huser. cbn. auto.
  - apply calm_cons in Hcalm. destruct Hcalm as [-> _].
    cbn. rewrite Huser. cbn. auto.
Qed.

(** C10: the [slug] of the request body is never read, and the stored slug
    is computed from the firstname alone: two create-user requests that
    agree on username, firstname, lastname and age are served identically
    (same response, same stored rows), whatever slugs they carry; whenever
    the request succeeds, the store is the old one with one row appended,
    whose slug is [slugify] of the firstname; and the request does succeed
    when the age fits in 64 bits and the store does not fail. *)
Theorem create_user_ignores_body_slug (db : Database) (fl : list bool)
    (b1 b2 : CreateUser.t)
    (Husername : CreateUser.username b1 = CreateUser.username b2)
    (Hfirstname : CreateUser.firstname b1 = CreateUser.firstname b2)
    (Hlastname : CreateUser.lastname b1 = CreateUser.lastname b2)
    (Hage : CreateUser.age b1 = CreateUser.age b2) :
  serve slugify (POST_user_create b1) db fl
  = serve slugify (POST_user_create b2) db fl
  /\ (succeeded (response (serve slugify (POST_user_create b2) db fl)) = true ->
      store (serve slugify (POST_user_create b2) db fl)
      = {| users := users db ++
                    [User.mk (next_id (map User.id (users db)))
                             (CreateUser.username b1)
                             (CreateUser.firstname b1)
                             (CreateUser.lastname b1) (CreateUser.age b1)
                             (slugify (CreateUser.firstname b1))];
           tasks := tasks db |})
  /\ (int64 (CreateUser.age b1) = true -> calm fl ->
      succeeded (response (serve slugify (POST_user_create b2) db fl)) = true).
Proof.
  split; [|split].
  - unfold serve, endpoint, create_user.
    rewrite Husername, Hfirstname, Hlastname, Hage. reflexivity.
  - rewrite Husername, Hfirstname, Hlastname, Hage.
    unfold succeeded. unfold_request. split_range; [|discriminate].
    destruct fl as [|[] [|[] fl]]; cbn; intros H;
      try discriminate H; reflexivity.
  - rewrite Hage. intros Hfits Hcalm. unfold succeeded. unfold_request.
    in_range.
    next_is_calm fl Hcalm; cbn; [reflexivity|].
    next_is_calm fl Hcalm; cbn; reflexivity.
Qed.

(** C5: when create-user succeeds, the row appended to the users table
    carries [slugify firstname] as its slug (next to the body's username,
    firstname, lastname and age); when update-user succeeds, every row
    with the requested id, and there is one, carries [slugify] of the new
    firstname.  The slug is a function of the firstname alone. *)
Theorem stored_slug_is_slugified_firstname
    (db1 : Database) (fl1 : list bool) (body1 : CreateUser.t)
    (db2 : Database) (fl2 : list bool) (uid : Z) (body2 : UpdateUser.t)
    (Hcreate : succeeded (response
                 (serve slugify (POST_user_create body1) db1 fl1)) = true)
    (Hupdate : succeeded (response
                 (serve slugify (PUT_user_update uid body2) db2 fl2)) = true) :
  users (store (serve slugify (POST_user_create body1) db1 fl1))
  = users db1 ++
    [User.mk (next_id (map User.id (users db1)))
             (CreateUser.username body1) (CreateUser.firstname body1)
             (CreateUser.lastname body1) (CreateUser.age body1)
             (slugify (CreateUser.firstname body1))]
  /\ (exists u, In u (users (store
                   (serve slugify (PUT_user_update uid body2) db2 fl2)))
                /\ User.id u = uid)
  /\ (forall u, In u (users (store
                   (serve slugify (PUT_user_update uid body2) db2 fl2))) ->
                User.id u = uid ->
                User.slug u = slugify (UpdateUser.firstname body2)
                /\ User.firstname u = UpdateUser.firstname body2).
Proof.
  split; [|split].
  - revert Hcreate. unfold succeeded. unfold_request.
    split_range; [|discriminate].
    destruct fl1 as [|[] [|[] fl1]]; cbn; intros H;
      try discriminate H; reflexivity.
  - revert Hupdate. unfold succeeded. unfold_request.
    split_range; try discriminate.
    all: destruct fl2 as [|[] [|[] [|[] fl2]]]; cbn; try discriminate.
    all: destruct (filter _ (users db2)) as [|u0 rest] eqn:E; cbn;
      try discriminate.
    all: pose proof (proj1 (filter_In (fun u => User.id u =? uid) u0
                                      (users db2))) as Hin.
    all: rewrite E in Hin; destruct (Hin (or_introl eq_refl)) as [Hu0 Hid].
    all: intros _.
    all: exists (set_user (UpdateUser.firstname body2)
                   (UpdateUser.lastname body2) (UpdateUser.age body2)
                   (slugify (UpdateUser.firstname body2)) u0).
    all: split; [|cbn; now apply Z.eqb_eq].
    all: apply in_map_iff; exists u0; rewrite Hid; auto.
  - revert Hupdate. unfold succeeded. unfold_request.
    split_range; try discriminate.
    all: destruct fl2 as [|[] [|[] [|[] fl2]]]; cbn; try discriminate.
    all: destruct (filter _ (users db2)) as [|u0 rest] eqn:E; cbn;
      try discriminate.
    all: intros _.
    all: intros u Hu Hid; apply in_map_iff in Hu.
    all: destruct Hu as [x [Hx _]].
    all: destruct (User.id x =? uid) eqn:Ex; subst u; cbn; auto.
    all: apply Z.eqb_neq in Ex; contradiction.
Qed.

(** C7 (amended): updating a task that a lookup finds, with a priority that
    fits in 64 bits (as the id of a stored task does), then fetching it
    again, answers the task with the new title, content and priority and
    with the id and user_id it had before. *)
Theorem update_task_then_fetch (db : Database) (fl1 fl2 : list bool)
    (tid : Z) (body : UpdateTask.t) (t0 : Task.t)
    (Hfound : scalar (fst (run (select_Task_where_id tid) db)) = Some t0)
    (Hid : int64 tid = true)
    (Hpriority : int64 (UpdateTask.priority body) = true)
    (Hcalm1 : calm fl1)
    (Hcalm2 : calm fl2) :
  let r := serve slugify (PUT_task_update tid body) db fl1 in
  response r
  = {| status := 200;
       content := JSON (Confirm (Confirmation.mk
                                   200 "Task update is successful")) |}
  /\ response (serve slugify (GET_task_id tid) (store r) fl2)
     = {| status := 200;
          content := JSON (TaskDict
                       (Task.mk (Task.id t0) (UpdateTask.title body)
                                (UpdateTask.content body)
                                (UpdateTask.priority body)
                                (Task.user_id t0))) |}
  /\ Task.id t0 = tid.
Proof.
  cbn in Hfound.
  destruct (filter (fun t => Task.id t =? tid) (tasks db))
    as [|t rest] eqn:E; [discriminate|].
  cbn in Hfound. injection Hfound as ->.
  assert (Hupd : forall fl, calm fl ->
            serve slugify (PUT_task_update tid body) db fl
            = {| response := {| status := 200;
                   content := JSON (Confirm (Confirmation.mk
                                 200 "Task update is successful")) |};
                 store := snd (run (update_Task_where_id tid
                                 (UpdateTask.title body)
                                 (UpdateTask.content body)
                                 (UpdateTask.priority body)) db);
                 events := [Executed (select_Task_where_id tid);
                            Executed (update_Task_where_id tid
                                 (UpdateTask.title body)
                                 (UpdateTask.content body)
                                 (UpdateTask.priority body));
                            Committed] |}).
  { intros fl H. unfold_request. in_range.
    next_is_calm fl H; cbn; rewrite E; cbn;
      [reflexivity|].
    next_is_calm fl H; cbn; [reflexivity|].
    next_is_calm fl H; cbn; reflexivity. }
  cbv zeta. rewrite (Hupd fl1 Hcalm1). cbn [response store].
  split; [reflexivity|]. split.
  - unfold_request. cbn [run snd tasks]. in_range.
    next_is_calm fl2 Hcalm2; cbn; rewrite filter_updated_tasks, E;
      reflexivity.
  - pose proof (proj1 (filter_In (fun t => Task.id t =? tid) t0
                                 (tasks db))) as Hin.
    rewrite E in Hin. destruct (Hin (or_introl eq_refl)) as [_ Hsame].
    now apply Z.eqb_eq.
Qed.

(** C4 (what the code does): deleting an existing user executes the
    delete of the user's tasks, then the delete of the user, and commits;
    afterwards no task row references the user and no user row has the id.
    Looking up one of the removed tasks by id then answers the generic 500,
    not 404: [task_by_id] turns its own 404 into a 500. *)
Theorem delete_user_cascades_then_lookup_500 (db : Database)
    (fl : list bool) (uid : Z)
    (Hexists : exists u, In u (users db) /\ User.id u = uid)
    (Hrange : int64 uid = true)
    (Hkey : NoDup (map Task.id (tasks db)))
    (Hcalm : calm fl) :
  let r := serve slugify (DELETE_user_delete uid) db fl in
  response r
  = {| status := 200;
       content := JSON (Confirm (Confirmation.mk 200
                    "User and associated tasks delete is successful")) |}
  /\ events r = [Executed (select_User_where_id uid);
                 Executed (delete_Task_where_user_id uid);
                 Executed (delete_User_where_id uid);
                 Committed]
  /\ (forall t, In t (tasks (store r)) -> Task.user_id t <> uid)
  /\ (forall u, In u (users (store r)) -> User.id u <> uid)
  /\ (forall t fl', In t (tasks db) -> Task.user_id t = uid ->
        response (serve slugify (GET_task_id (Task.id t)) (store r) fl')
        = generic_500).
Proof.
  destruct Hexists as [u [Hu Hid]].
  assert (Hrows : exists u0 rest,
            filter (fun u => User.id u =? uid) (users db) = u0 :: rest).
  { destruct (filter (fun u => User.id u =? uid) (users db))
      as [|u0 rest] eqn:E; [|now exists u0, rest].
    assert (Hin : In u (filter (fun u => User.id u =? uid) (users db)))
      by (apply filter_In; split; [exact Hu | now apply Z.eqb_eq]).
    rewrite E in Hin. contradiction. }
  destruct Hrows as [u0 [rest E]].
  assert (Hdel : serve slugify (DELETE_user_delete uid) db fl
            = {| response := {| status := 200;
                   content := JSON (Confirm (Confirmation.mk 200
                     "User and associated tasks delete is successful")) |};
                 store := {| users := filter (fun u => negb (User.id u =? uid))
                                             (users db);
                             tasks := filter (fun t => negb (Task.user_id t =? uid))
                                             (tasks db) |};
                 events := [Executed (select_User_where_id uid);
                            Executed (delete_Task_where_user_id uid);
                            Executed (delete_User_where_id uid);
                            Committed] |}).
  { unfold_request. in_range.
    next_is_calm fl Hcalm; cbn; rewrite E; cbn; [reflexivity|].
    next_is_calm fl Hcalm; cbn; [reflexivity|].
    next_is_calm fl Hcalm; cbn; [reflexivity|].
    next_is_calm fl Hcalm; cbn; reflexivity. }
  cbv zeta. rewrite Hdel. cbn [response store events users tasks].
  split; [reflexivity|]. split; [reflexivity|].
  split; [|split].
  - intros t Ht. apply filter_In in Ht. destruct Ht as [_ Ht].
    apply negb_true_iff in Ht. now apply Z.eqb_neq.
  - intros v Hv. apply filter_In in Hv. destruct Hv as [_ Hv].
    apply negb_true_iff in Hv. now apply Z.eqb_neq.
  - intros t fl' Ht Howner. apply task_by_id_missing.
    cbn [tasks]. intros t' Ht' Hsame.
    apply filter_In in Ht'. destruct Ht' as [Hin' Hother].
    assert (t' = t) by (now apply (key_determines_row Task.id (tasks db))).
    subst t'. rewrite Howner, Z.eqb_refl in Hother. discriminate.
Qed.

(** C8 (amended): every request that succeeds is answered with HTTP
    status 200, creations included, because no route declares another
    status.  The 201 of a creation is the [status_code] entry of the
    returned confirmation; the confirmation of an update or a delete
    carries 200, and a read returns rows, not a confirmation. *)
Theorem success_status (req : Request) (db : Database) (fl : list bool)
    (Hok : succeeded (response (serve slugify req db fl)) = true) :
  status (response (serve slugify req db fl)) = 200
  /\ confirmed_status (response (serve slugify req db fl))
     = confirmation_of req.
Proof.
  revert Hok. unfold succeeded, confirmed_status.
  destruct req; unfold_request; split_range;
    destruct fl as [|[] [|[] [|[] [|[] fl]]]]; cbn;
    repeat match goal with
           | |- context [filter ?p ?l] => destruct (filter p l); cbn
           | |- context [is_empty ?l] => destruct l; cbn
           end;
    intros Hok; try discriminate Hok; split; reflexivity.
Qed.


End Handlers.

(** ** backend/db.py *)

(** C6 (what the code does): under a calm schedule,
    [generate_unique_slug] and [generate_unique_username] never return a
    value that a user row holds; a free base is returned unchanged; a base
    held by one row is returned extended with a hyphen and the 8 hexadecimal
    characters of the first draw whose candidate is free (every candidate
    before it being held by one row), given enough iterations.  But the
    first probed value that several rows hold, the base or a later
    candidate, makes the lookup raise [MultipleResultsFound], and no value
    is returned. *)
Theorem generate_unique_contract (uuid4 : nat -> Z) (base : string)
    (db : Database) (fl : list bool) (k : nat)
    (Hcalm : calm fl) :
  probe_contract slug_holders generate_unique_slug uuid4 base db fl k
  /\ probe_contract username_holders generate_unique_username
                    uuid4 base db fl k
  /\ String.length (short_suffix (uuid4 k)) = 8%nat
  /\ all_hex (short_suffix (uuid4 k)) = true.
Proof.
  split; [|split].
  - exact (loop_contract User.slug select_User_where_slug
             generate_unique_slug_from
             (fun _ _ => eq_refl) (fun _ => eq_refl)
             (fun _ _ _ _ => eq_refl)
             (fun _ _ _ _ _ => eq_refl) uuid4 base db fl k Hcalm).
  - exact (loop_contract User.username select_User_where_username
             generate_unique_username_from
             (fun _ _ => eq_refl) (fun _ => eq_refl)
             (fun _ _ _ _ => eq_refl)
             (fun _ _ _ _ _ => eq_refl) uuid4 base db fl k Hcalm).
  - apply short_suffix_shape.
Qed.

(** The failing input of C6, a store the handlers can build: after two
    create-user requests with the same firstname two rows hold the slug
    "alice", and probing for that base raises instead of returning. *)
Lemma duplicate_slug_makes_probe_raise :
  List.length (slug_holders two_alices "alice") = 2%nat
  /\ (forall uuid4 fuel,
        fst (generate_unique_slug (S fuel) uuid4 "alice"
               (open_session two_alices []))
        = Raise MultipleResultsFound)
  /\ ~ (exists uuid4 fuel v,
          fst (generate_unique_slug fuel uuid4 "alice"
                 (open_session two_alices []))
          = Return (Some v)).
Proof.
  split; [reflexivity|]. split; [reflexivity|].
  intros [uuid4 [fuel [v H]]]. destruct fuel; discriminate H.
Qed.

(** C8 (as stated) fails: a successful create-user is answered 200. *)
Lemma create_user_answers_200 :
  succeeded (response (serve ascii_slugify (POST_user_create alice)
                         empty_db [])) = true
  /\ status (response (serve ascii_slugify (POST_user_create alice)
                         empty_db [])) <> 201.
Proof. split; [reflexivity | discriminate]. Qed.


(** C3 (as stated) fails for a user_id that does not fit in 64 bits: no
    user row has it, and the answer is the generic 500, not 404, since the
    lookup itself fails. *)
Lemma create_task_huge_user_id_answers_500 :
  (forall u, In u (users alice_db) -> User.id u <> 2 ^ 63)
  /\ response (serve ascii_slugify
                 (POST_task_create (CreateTask.mk "T2" "C2" 2 (2 ^ 63)))
                 alice_db [])
     = generic_500.
Proof.
  split; [|reflexivity].
  intros u [<- | []]. discriminate.
Qed.

(** C7 (as stated) fails for a priority that does not fit in 64 bits: the
    update of an existing task is answered the generic 500, and fetching the
    task again answers the row as it was. *)
Lemma update_task_huge_priority_is_refused :
  response (serve ascii_slugify
              (PUT_task_update 1 (UpdateTask.mk "T2" "C2" (2 ^ 63)))
              alice_db [])
  = generic_500
  /\ response (serve ascii_slugify (GET_task_id 1)
                 (store (serve ascii_slugify
                           (PUT_task_update 1
                              (UpdateTask.mk "T2" "C2" (2 ^ 63)))
                           alice_db []))
                 [])
     = {| status := 200; content := JSON (TaskDict t1_row) |}.
Proof. split; reflexivity. Qed.

(** ** The theorems at concrete requests *)

Lemma by_id_missing_answers_500_witness :
  response (serve ascii_slugify (GET_user_id 7) alice_db []) = generic_500 /\
  response (serve ascii_slugify (GET_task_id 7) alice_db []) = generic_500.
Proof.
  apply (by_id_missing_answers_500 ascii_slugify alice_db [] 7 7).
  - intros u [<- | []]. cbn. lia.
  - intros t [<- | []]. cbn. lia.
Defined.

Lemma empty_list_answers_500_witness :
  response (serve ascii_slugify GET_user empty_db []) = generic_500 /\
  response (serve ascii_slugify GET_task empty_db []) = generic_500.
Proof.
  apply (empty_list_answers_500 ascii_slugify empty_db empty_db []);
    reflexivity.
Defined.

Lemma create_task_unknown_user_witness :
  let r := serve ascii_slugify
             (POST_task_create (CreateTask.mk "T2" "C2" 2 99)) alice_db [] in
  response r = {| status := 404; content := JSON_detail "User was not found" |}
  /\ store r = alice_db
  /\ events r = [Executed (select_User_where_id 99)].
Proof.
  apply (create_task_unknown_user ascii_slugify alice_db []
           (CreateTask.mk "T2" "C2" 2 99)).
  - intros u [<- | []]. cbn. lia.
  - reflexivity.
  - reflexivity.
Defined.

Lemma delete_user_cascades_then_lookup_500_witness :
  let r := serve ascii_slugify (DELETE_user_delete 1) alice_db [] in
  store r = empty_db
  /\ response (serve ascii_slugify (GET_task_id 1) (store r) [])
     = generic_500.
Proof.
  pose proof (delete_user_cascades_then_lookup_500 ascii_slugify alice_db [] 1
                (ex_intro _ alice_row (conj (or_introl eq_refl) eq_refl))
                eq_refl
                (NoDup_cons 1 (fun H : In 1 [] => H) (NoDup_nil Z))
                eq_refl) as H.
  cbv zeta in H |- *. split; [reflexivity|].
  apply (proj2 (proj2 (proj2 (proj2 H))) t1_row []).
  - now left.
  - reflexivity.
Defined.

Lemma stored_slug_is_slugified_firstname_witness :
  users (store (serve ascii_slugify (POST_user_create alice) empty_db []))
  = [alice_row]
  /\ (forall u,
        In u (users (store (serve ascii_slugify
               (PUT_user_update 1 (UpdateUser.mk "Bob" "Roe" 31))
               alice_db []))) ->
        User.id u = 1 ->
        User.slug u = "bob" /\ User.firstname u = "Bob").
Proof.
  pose proof (stored_slug_is_slugified_firstname ascii_slugify
                empty_db [] alice
                alice_db [] 1 (UpdateUser.mk "Bob" "Roe" 31)
                eq_refl eq_refl) as H.
  split; [exact (proj1 H) | exact (proj2 (proj2 H))].
Defined.

Lemma generate_unique_contract_witness :
  calm []
  /\ fst (generate_unique_slug 2 sample_uuid4 "alice"
            (open_session alice_db []))
     = Return (Some "alice-1234abcd")
  /\ fst (generate_unique_username 1 sample_uuid4 "bob"
            (open_session alice_db []))
     = Return (Some "bob").
Proof.
  pose proof (generate_unique_contract sample_uuid4 "alice" alice_db [] 0
                eq_refl) as Ha.
  pose proof (generate_unique_contract sample_uuid4 "bob" alice_db [] 0
                eq_refl) as Hb.
  split; [reflexivity|]. split.
  - destruct Ha as [[_ [_ [Hretry _]]] _].
    apply (Hretry); [|reflexivity|apply le_n].
    intros j Hj. assert (j = 0%nat) as -> by lia. reflexivity.
  - destruct Hb as [_ [[_ [Hfree _]] _]].
    exact (Hfree eq_refl 0%nat).
Defined.

Lemma update_task_then_fetch_witness :
  let r := serve ascii_slugify
             (PUT_task_update 1 (UpdateTask.mk "T2" "C2" 5)) alice_db [] in
  response (serve ascii_slugify (GET_task_id 1) (store r) [])
  = {| status := 200;
       content := JSON (TaskDict (Task.mk 1 "T2" "C2" 5 1)) |}.
Proof.
  exact (proj1 (proj2 (update_task_then_fetch ascii_slugify alice_db [] []
                         1 (UpdateTask.mk "T2" "C2" 5) t1_row
                         eq_refl eq_refl eq_refl eq_refl eq_refl))).
Defined.

Lemma success_status_witness :
  status (response (serve ascii_slugify (POST_user_create alice) empty_db []))
  = 200
  /\ confirmed_status
       (response (serve ascii_slugify (POST_user_create alice) empty_db []))
     = Some 201.
Proof.
  exact (success_status ascii_slugify (POST_user_create alice) empty_db []
           eq_refl).
Defined.


Lemma create_user_ignores_body_slug_witness :
  serve ascii_slugify (POST_user_create alice) empty_db []
  = serve ascii_slugify
      (POST_user_create (CreateUser.mk "alice" "Alice" "Doe" 30 "anything"))
      empty_db []
  /\ store (serve ascii_slugify
              (POST_user_create
                 (CreateUser.mk "alice" "Alice" "Doe" 30 "anything"))
              empty_db [])
     = {| users := [alice_row]; tasks := [] |}.
Proof.
  pose proof (create_user_ignores_body_slug ascii_slugify empty_db [] alice
                (CreateUser.mk "alice" "Alice" "Doe" 30 "anything")
                eq_refl eq_refl eq_refl eq_refl) as [Hsame [Hrow Hok]].
  split; [exact Hsame|].
  exact (Hrow (Hok eq_refl eq_refl)).
Defined.

(** * Further properties of the handlers *)

Lemma next_id_above (ids : list Z) (i : Z) : In i ids -> i < next_id ids.
Proof.
  unfold next_id. induction ids as [|j ids IH]; cbn; [contradiction|].
  intros [-> | H]; [lia|]. apply IH in H. lia.
Qed.

Lemma found_user_exists (db : Database) (uid : Z) (u : User.t)
    (rest : list User.t) :
  filter (fun u => User.id u =? uid) (users db) = u :: rest ->
  user_exists db uid.
Proof.
  intros E.
  pose proof (proj1 (filter_In (fun u => User.id u =? uid) u (users db))) as H.
  rewrite E in H. destruct (H (or_introl eq_refl)) as [Hin Hid].
  exists u. split; [exact Hin | now apply Z.eqb_eq].
Qed.

Lemma user_exists_found (db : Database) (uid : Z) :
  user_exists db uid ->
  exists u rest, filter (fun u => User.id u =? uid) (users db) = u :: rest.
Proof.
  intros [u [Hin Hid]].
  destruct (filter (fun u => User.id u =? uid) (users db))
    as [|u0 rest] eqn:E; [|now exists u0, rest].
  assert (H : In u (filter (fun u => User.id u =? uid) (users db)))
    by (apply filter_In; split; [exact Hin | now apply Z.eqb_eq]).
  rewrite E in H. contradiction.
Qed.

Lemma task_exists_found (db : Database) (tid : Z) :
  task_exists db tid ->
  exists t rest, filter (fun t => Task.id t =? tid) (tasks db) = t :: rest.
Proof.
  intros [t [Hin Hid]].
  destruct (filter (fun t => Task.id t =? tid) (tasks db))
    as [|t0 rest] eqn:E; [|now exists t0, rest].
  assert (H : In t (filter (fun t => Task.id t =? tid) (tasks db)))
    by (apply filter_In; split; [exact Hin | now apply Z.eqb_eq]).
  rewrite E in H. contradiction.
Qed.

(** Splits a request over its handler, the first store failures scheduled
    and the rows its lookups find. *)
Ltac split_request req fl :=
  destruct req; unfold_request; split_range;
  destruct fl as [|[] [|[] [|[] [|[] fl]]]]; cbn;
  repeat match goal with
         | |- context [filter ?p ?l] => destruct (filter p l); cbn
         | |- context [is_empty ?l] => destruct l; cbn
         end.

Lemma filter_fresh_user (db : Database) (u : User.t) :
  User.id u = next_id (map User.id (users db)) ->
  filter (fun v => User.id v =? User.id u) (users db ++ [u]) = [u].
Proof.
  intros Hid. rewrite filter_app. cbn. rewrite Z.eqb_refl.
  rewrite filter_none; [reflexivity|].
  intros v Hv. apply Z.eqb_neq.
  pose proof (next_id_above (map User.id (users db)) (User.id v)
                (in_map User.id _ _ Hv)). lia.
Qed.

Lemma filter_fresh_task (db : Database) (t : Task.t) :
  Task.id t = next_id (map Task.id (tasks db)) ->
  filter (fun v => Task.id v =? Task.id t) (tasks db ++ [t]) = [t].
Proof.
  intros Hid. rewrite filter_app. cbn. rewrite Z.eqb_refl.
  rewrite filter_none; [reflexivity|].
  intros v Hv. apply Z.eqb_neq.
  pose proof (next_id_above (map Task.id (tasks db)) (Task.id v)
                (in_map Task.id _ _ Hv)). lia.
Qed.

Lemma filter_updated_users (uid : Z) (a b : string) (c : Z) (d : string)
    (l : list User.t) :
  filter (fun u => User.id u =? uid)
         (map (fun u => if User.id u =? uid then set_user a b c d u else u) l)
  = map (set_user a b c d) (filter (fun u => User.id u =? uid) l).
Proof.
  induction l as [|u l IH]; [reflexivity|].
  cbn. destruct (User.id u =? uid) eqn:E; cbn; rewrite E, IH; reflexivity.
Qed.

Lemma NoDup_map_filter {A} (key : A -> Z) (p : A -> bool) (l : list A) :
  NoDup (map key l) -> NoDup (map key (filter p l)).
Proof.
  induction l as [|x l IH]; cbn; intros H; [constructor|].
  inversion H as [|k ks Hnotin Hnd]; subst.
  destruct (p x); cbn; [constructor|]; auto.
  intros Hin. apply Hnotin. apply in_map_iff in Hin.
  destruct Hin as [y [Hy Hin]]. apply filter_In in Hin.
  rewrite <- Hy. apply in_map. tauto.
Qed.

Lemma NoDup_map_fresh {A} (key : A -> Z) (l : list A) (x : A) :
  NoDup (map key l) -> key x = next_id (map key l) ->
  NoDup (map key (l ++ [x])).
Proof.
  intros Hnd Hx. rewrite map_app. apply NoDup_app; [exact Hnd| |].
  - cbn. constructor; [intros []|constructor].
  - intros k Hk [<- | []]. apply next_id_above in Hk. lia.
Qed.

Lemma map_id_updated_users (uid : Z) (a b : string) (c : Z) (d : string)
    (l : list User.t) :
  map User.id
      (map (fun u => if User.id u =? uid then set_user a b c d u else u) l)
  = map User.id l
  /\ map User.username
      (map (fun u => if User.id u =? uid then set_user a b c d u else u) l)
     = map User.username l.
Proof.
  rewrite !map_map. split; apply map_ext; intros u;
    destruct (User.id u =? uid); reflexivity.
Qed.

Lemma map_id_updated_tasks (tid : Z) (a b : string) (c : Z)
    (l : list Task.t) :
  map Task.id
      (map (fun t => if Task.id t =? tid then set_task a b c t else t) l)
  = map Task.id l
  /\ map Task.user_id
      (map (fun t => if Task.id t =? tid then set_task a b c t else t) l)
     = map Task.user_id l.
Proof.
  rewrite !map_map. split; apply map_ext; intros t;
    destruct (Task.id t =? tid); reflexivity.
Qed.

Section MoreHandlers.

Variable slugify : string -> string.

Lemma serve_store (req : Request) (db : Database) (fl : list bool) :
  store (serve slugify req db fl)
  = if succeeded (response (serve slugify req db fl))
    then effect slugify req db
    else db.
Proof.
  unfold succeeded, effect.
  split_request req fl; try reflexivity; now destruct db.
Qed.

(** X1: a request changes the store only when it succeeds, and then to
    exactly what its statements produce; every request that is answered
    with an error, not-found or fault alike, leaves the store as it was. *)
Theorem store_after_request (req : Request) (db : Database)
    (fl : list bool) :
  store (serve slugify req db fl)
  = if succeeded (response (serve slugify req db fl))
    then effect slugify req db
    else db.
Proof.
  exact (serve_store req db fl).
Qed.


(** X2: a response carries status 200, 404 or 500, and 404 is answered by
    create-task alone, when no user row has the body's user_id: no other
    handler lets a 404 of its own reach the caller. *)
Theorem only_create_task_answers_404 (req : Request) (db : Database)
    (fl : list bool) :
  (status (response (serve slugify req db fl)) = 200
   \/ status (response (serve slugify req db fl)) = 404
   \/ status (response (serve slugify req db fl)) = 500)
  /\ (status (response (serve slugify req db fl)) = 404 ->
      exists body, req = POST_task_create body
                   /\ ~ user_exists db (CreateTask.user_id body)).
Proof.
  destruct req;
    try (split; [|intros H; exfalso; revert H];
         unfold_request; split_range;
         destruct fl as [|[] [|[] [|[] [|[] fl]]]]; cbn;
         repeat match goal with
                | |- context [filter ?p ?l] => destruct (filter p l); cbn
                | |- context [is_empty ?l] => destruct l; cbn
                end; (auto || discriminate)).
  split.
  - split_request (POST_task_create body) fl; auto.
  - intros H. exists body. split; [reflexivity|].
    intros Hex. apply user_exists_found in Hex.
    destruct Hex as [u [rest E]]. revert H. unfold_request. split_range;
      destruct fl as [|[] [|[] [|[] [|[] fl]]]]; cbn; rewrite ?E; cbn;
      discriminate.
Qed.

(** X3: listing answers 200 with every row of the table, in insertion
    order, exactly when the table is not empty and the store does not fail;
    otherwise it answers the generic 500. *)
Theorem list_all_answers (db : Database) (fl : list bool) :
  response (serve slugify GET_user db fl)
  = (if is_empty (users db) || hd false fl then generic_500
     else {| status := 200; content := JSON (UserList (users db)) |})
  /\ response (serve slugify GET_task db fl)
     = (if is_empty (tasks db) || hd false fl then generic_500
        else {| status := 200; content := JSON (TaskList (tasks db)) |}).
Proof.
  unfold_request.
  split; destruct fl as [|[] fl]; cbn;
    [ destruct (users db) | destruct (users db) | destruct (users db)
    | destruct (tasks db) | destruct (tasks db) | destruct (tasks db) ];
    reflexivity.
Qed.

(** X4: updating or deleting a user or a task whose id no row has, and
    listing the tasks of such a user, answers the generic 500 (the handler's
    own 404 is caught); the four writing handlers roll back first. *)
Theorem missing_target_answers_500 (db : Database) (fl : list bool)
    (uid tid : Z) (bu : UpdateUser.t) (bt : UpdateTask.t)
    (Huser : ~ user_exists db uid)
    (Htask : ~ task_exists db tid) :
  (forall req,
     In req [PUT_user_update uid bu; DELETE_user_delete uid;
             PUT_task_update tid bt; DELETE_task_delete tid] ->
     response (serve slugify req db fl) = generic_500
     /\ existsb is_rollback (events (serve slugify req db fl)) = true)
  /\ response (serve slugify (GET_user_tasks uid) db fl) = generic_500.
Proof.
  assert (Eu : filter (fun u => User.id u =? uid) (users db) = []).
  { apply filter_none. intros u Hu. apply Z.eqb_neq. intros Hid.
    apply Huser. now exists u. }
  assert (Et : filter (fun t => Task.id t =? tid) (tasks db) = []).
  { apply filter_none. intros t Ht. apply Z.eqb_neq. intros Hid.
    apply Htask. now exists t. }
  split.
  - intros req [<- | [<- | [<- | [<- | []]]]]; unfold_request; split_range;
      destruct fl as [|[] fl]; cbn; rewrite ?Eu, ?Et; cbn; split; reflexivity.
  - unfold_request. split_range;
      destruct fl as [|[] fl]; cbn; rewrite ?Eu; reflexivity.
Qed.

(** X5: for a user that exists, under an id that fits in 64 bits as the
    ids of stored rows do, and with no store failure, the tasks of the user
    are answered with status 200: the task rows whose user_id is the user's
    id, in insertion order, an empty list included; the store is not
    changed. *)
Theorem tasks_by_user_id_lists_owned (db : Database) (fl : list bool)
    (uid : Z)
    (Huser : user_exists db uid)
    (Hrange : int64 uid = true)
    (Hcalm : calm fl) :
  response (serve slugify (GET_user_tasks uid) db fl)
  = {| status := 200;
       content := JSON (TaskList
                    (filter (fun t => Task.user_id t =? uid) (tasks db))) |}
  /\ store (serve slugify (GET_user_tasks uid) db fl) = db.
Proof.
  apply user_exists_found in Huser. destruct Huser as [u [rest E]].
  unfold_request. in_range.
  next_is_calm fl Hcalm; cbn; rewrite E; cbn; [split; reflexivity|].
  next_is_calm fl Hcalm; cbn; split; reflexivity.
Qed.

(** What the handlers do when the store does not fail. *)

Lemma create_user_calm (db : Database) (fl : list bool) (body : CreateUser.t) :
  int64 (CreateUser.age body) = true -> calm fl ->
  response (serve slugify (POST_user_create body) db fl)
  = {| status := 200;
       content := JSON (Confirm (Confirmation.mk 201 "Successful")) |}.
Proof.
  intros Hage H. unfold_request. in_range.
  next_is_calm fl H; cbn; [reflexivity|].
  next_is_calm fl H; cbn; reflexivity.
Qed.

Lemma create_task_calm (db : Database) (fl : list bool) (body : CreateTask.t) :
  user_exists db (CreateTask.user_id body) ->
  int64 (CreateTask.user_id body) = true ->
  int64 (CreateTask.priority body) = true -> calm fl ->
  response (serve slugify (POST_task_create body) db fl)
  = {| status := 200;
       content := JSON (Confirm (Confirmation.mk 201 "Successful")) |}.
Proof.
  intros Hu Hid Hprio H.
  apply user_exists_found in Hu. destruct Hu as [u [rest E]].
  unfold_request. in_range.
  next_is_calm fl H; cbn; rewrite E; cbn; [reflexivity|].
  next_is_calm fl H; cbn; [reflexivity|].
  next_is_calm fl H; cbn; reflexivity.
Qed.

Lemma update_user_calm (db : Database) (fl : list bool) (uid : Z)
    (body : UpdateUser.t) :
  user_exists db uid -> int64 uid = true ->
  int64 (UpdateUser.age body) = true -> calm fl ->
  response (serve slugify (PUT_user_update uid body) db fl)
  = {| status := 200;
       content := JSON (Confirm (Confirmation.mk
                                   200 "User update is successful")) |}.
Proof.
  intros Hu Hid Hage H.
  apply user_exists_found in Hu. destruct Hu as [u [rest E]].
  unfold_request. in_range.
  next_is_calm fl H; cbn; rewrite E; cbn; [reflexivity|].
  next_is_calm fl H; cbn; [reflexivity|].
  next_is_calm fl H; cbn; reflexivity.
Qed.

Lemma delete_user_calm (db : Database) (fl : list bool) (uid : Z) :
  user_exists db uid -> int64 uid = true -> calm fl ->
  response (serve slugify (DELETE_user_delete uid) db fl)
  = {| status := 200;
       content := JSON (Confirm (Confirmation.mk 200
                    "User and associated tasks delete is successful")) |}.
Proof.
  intros Hu Hid H.
  apply user_exists_found in Hu. destruct Hu as [u [rest E]].
  unfold_request. in_range.
  next_is_calm fl H; cbn; rewrite E; cbn; [reflexivity|].
  next_is_calm fl H; cbn; [reflexivity|].
  next_is_calm fl H; cbn; [reflexivity|].
  next_is_calm fl H; cbn; reflexivity.
Qed.

Lemma delete_task_calm (db : Database) (fl : list bool) (tid : Z) :
  task_exists db tid -> int64 tid = true -> calm fl ->
  response (serve slugify (DELETE_task_delete tid) db fl)
  = {| status := 200;
       content := JSON (Confirm (Confirmation.mk
                                   200 "Task delete is successful")) |}.
Proof.
  intros Ht Hid H.
  apply task_exists_found in Ht. destruct Ht as [t [rest E]].
  unfold_request. in_range.
  next_is_calm fl H; cbn; rewrite E; cbn; [reflexivity|].
  next_is_calm fl H; cbn; [reflexivity|].
  next_is_calm fl H; cbn; reflexivity.
Qed.

Lemma user_by_id_calm (db : Database) (fl : list bool) (uid : Z)
    (u : User.t) (rest : list User.t) :
  filter (fun v => User.id v =? uid) (users db) = u :: rest ->
  int64 uid = true -> calm fl ->
  response (serve slugify (GET_user_id uid) db fl)
  = {| status := 200; content := JSON (UserDict u) |}.
Proof.
  intros E Hid H. unfold_request. in_range.
  next_is_calm fl H; cbn; rewrite E; reflexivity.
Qed.

Lemma task_by_id_calm (db : Database) (fl : list bool) (tid : Z)
    (t : Task.t) (rest : list Task.t) :
  filter (fun v => Task.id v =? tid) (tasks db) = t :: rest ->
  int64 tid = true -> calm fl ->
  response (serve slugify (GET_task_id tid) db fl)
  = {| status := 200; content := JSON (TaskDict t) |}.
Proof.
  intros E Hid H. unfold_request. in_range.
  next_is_calm fl H; cbn; rewrite E; reflexivity.
Qed.

(** X6: a user that is created can be fetched: with no store failure, an
    age that fits in 64 bits and a next free id that does, create-user
    appends one row under that id and leaves the tasks alone, and
    get-user-by-id of that id then answers that row, with the body's
    username, firstname, lastname and age. *)
Theorem create_user_then_fetch (db : Database) (fl1 fl2 : list bool)
    (body : CreateUser.t)
    (Hage : int64 (CreateUser.age body) = true)
    (Hkey : int64 (next_id (map User.id (users db))) = true)
    (Hcalm1 : calm fl1)
    (Hcalm2 : calm fl2) :
  let r := serve slugify (POST_user_create body) db fl1 in
  let row := User.mk (next_id (map User.id (users db)))
                     (CreateUser.username body) (CreateUser.firstname body)
                     (CreateUser.lastname body) (CreateUser.age body)
                     (slugify (CreateUser.firstname body)) in
  store r = {| users := users db ++ [row]; tasks := tasks db |}
  /\ response (serve slugify (GET_user_id (User.id row)) (store r) fl2)
     = {| status := 200; content := JSON (UserDict row) |}.
Proof.
  cbv zeta. rewrite serve_store, create_user_calm by assumption.
  cbn [succeeded content effect run snd]. split; [reflexivity|].
  apply user_by_id_calm with (rest := []); [|exact Hkey|exact Hcalm2].
  cbn [users]. now apply filter_fresh_user.
Qed.

(** X7: a task that is created for an existing user can be fetched and is
    listed for its user: with no store failure, and with a user_id, a
    priority and a next free id that fit in 64 bits, create-task appends one
    row under that id, get-task-by-id of that id answers that row, and the
    tasks of the user are those listed before followed by the new one. *)
Theorem create_task_then_fetch (db : Database) (fl1 fl2 fl3 : list bool)
    (body : CreateTask.t)
    (Huser : user_exists db (CreateTask.user_id body))
    (Huid : int64 (CreateTask.user_id body) = true)
    (Hpriority : int64 (CreateTask.priority body) = true)
    (Hkey : int64 (next_id (map Task.id (tasks db))) = true)
    (Hcalm1 : calm fl1)
    (Hcalm2 : calm fl2)
    (Hcalm3 : calm fl3) :
  let r := serve slugify (POST_task_create body) db fl1 in
  let row := Task.mk (next_id (map Task.id (tasks db)))
                     (CreateTask.title body) (CreateTask.content body)
                     (CreateTask.priority body) (CreateTask.user_id body) in
  store r = {| users := users db; tasks := tasks db ++ [row] |}
  /\ response (serve slugify (GET_task_id (Task.id row)) (store r) fl2)
     = {| status := 200; content := JSON (TaskDict row) |}
  /\ response (serve slugify (GET_user_tasks (CreateTask.user_id body))
                 (store r) fl3)
     = {| status := 200;
          content := JSON (TaskList
            (filter (fun t => Task.user_id t =? CreateTask.user_id body)
                    (tasks db) ++ [row])) |}.
Proof.
  cbv zeta.
  rewrite serve_store, create_task_calm by assumption.
  cbn [succeeded content effect run snd]. split; [reflexivity|]. split.
  - apply task_by_id_calm with (rest := []); [|exact Hkey|exact Hcalm2].
    cbn [tasks]. now apply filter_fresh_task.
  - apply user_exists_found in Huser. destruct Huser as [u [rest E]].
    unfold_request. cbn [users tasks]. in_range.
    next_is_calm fl3 Hcalm3; cbn; rewrite E; cbn.
    + rewrite filter_app. cbn. rewrite Z.eqb_refl. reflexivity.
    + next_is_calm fl3 Hcalm3; cbn; rewrite filter_app; cbn;
        rewrite Z.eqb_refl; reflexivity.
Qed.

(** X8: updating a user that a lookup finds, with an age that fits in 64
    bits (as the id of a stored user does), then fetching it again, answers
    the row with the new firstname, lastname and age, the slug of the new
    firstname, and the id and username it had before; the tasks are not
    touched. *)
Theorem update_user_then_fetch (db : Database) (fl1 fl2 : list bool)
    (uid : Z) (body : UpdateUser.t) (u0 : User.t)
    (Hfound : scalar (fst (run (select_User_where_id uid) db)) = Some u0)
    (Hid : int64 uid = true)
    (Hage : int64 (UpdateUser.age body) = true)
    (Hcalm1 : calm fl1)
    (Hcalm2 : calm fl2) :
  let r := serve slugify (PUT_user_update uid body) db fl1 in
  response (serve slugify (GET_user_id uid) (store r) fl2)
  = {| status := 200;
       content := JSON (UserDict
                    (User.mk (User.id u0) (User.username u0)
                             (UpdateUser.firstname body)
                             (UpdateUser.lastname body)
                             (UpdateUser.age body)
                             (slugify (UpdateUser.firstname body)))) |}
  /\ tasks (store r) = tasks db.
Proof.
  cbn in Hfound.
  destruct (filter (fun u => User.id u =? uid) (users db))
    as [|u rest] eqn:E; [discriminate|].
  cbn in Hfound. injection Hfound as ->.
  cbv zeta. rewrite serve_store, update_user_calm;
    [|now apply (found_user_exists db uid u0 rest)
     |exact Hid|exact Hage|exact Hcalm1].
  cbn [succeeded content effect run snd]. split; [|reflexivity].
  apply user_by_id_calm
    with (rest := map (set_user (UpdateUser.firstname body)
                                (UpdateUser.lastname body)
                                (UpdateUser.age body)
                                (slugify (UpdateUser.firstname body))) rest);
    [|exact Hid|exact Hcalm2].
  cbn [users]. rewrite filter_updated_users, E. reflexivity.
Qed.

(** X9: deleting a task that exists, under an id that fits in 64 bits as
    the ids of stored rows do, and with no store failure, answers the 200
    confirmation, removes the rows with that id and no other, and leaves the
    users alone. *)
Theorem delete_task_removes_only_target (db : Database) (fl : list bool)
    (tid : Z)
    (Htask : task_exists db tid)
    (Hrange : int64 tid = true)
    (Hcalm : calm fl) :
  let r := serve slugify (DELETE_task_delete tid) db fl in
  response r
  = {| status := 200;
       content := JSON (Confirm (Confirmation.mk
                                   200 "Task delete is successful")) |}
  /\ users (store r) = users db
  /\ (forall t, In t (tasks (store r)) <->
                In t (tasks db) /\ Task.id t <> tid).
Proof.
  cbv zeta. rewrite serve_store, delete_task_calm by assumption.
  cbn [succeeded content effect run snd users tasks].
  split; [reflexivity|]. split; [reflexivity|].
  intros t. rewrite filter_In, negb_true_iff, Z.eqb_neq. reflexivity.
Qed.

(** X10: deleting a user that exists, under an id that fits in 64 bits as
    the ids of stored rows do, and with no store failure, removes the user
    rows with that id and the task rows that reference it, and nothing else:
    every other user and every task of another user is kept, and no row is
    added. *)
Theorem delete_user_removes_only_target (db : Database) (fl : list bool)
    (uid : Z)
    (Huser : user_exists db uid)
    (Hrange : int64 uid = true)
    (Hcalm : calm fl) :
  let r := serve slugify (DELETE_user_delete uid) db fl in
  (forall u, In u (users (store r)) <->
             In u (users db) /\ User.id u <> uid)
  /\ (forall t, In t (tasks (store r)) <->
                In t (tasks db) /\ Task.user_id t <> uid).
Proof.
  cbv zeta. rewrite serve_store, delete_user_calm by assumption.
  cbn [succeeded content effect run snd users tasks].
  split; intros x; rewrite filter_In, negb_true_iff, Z.eqb_neq; reflexivity.
Qed.

Lemma create_task_succeeds_for_user (db : Database) (fl : list bool)
    (body : CreateTask.t) :
  succeeded (response (serve slugify (POST_task_create body) db fl)) = true ->
  user_exists db (CreateTask.user_id body).
Proof.
  unfold succeeded. unfold_request. split_range; try discriminate.
  all: destruct fl as [|[] fl]; cbn; try discriminate.
  all: destruct (filter _ (users db)) as [|u rest] eqn:E; cbn;
    try discriminate; intros _; now apply (found_user_exists db _ u rest).
Qed.

(** X11: an update never changes an id, a username, the owner of a task or
    a row other than its target, whether it succeeds or not: update-user
    keeps the ids and usernames of all user rows, every user row with
    another id and all task rows; update-task keeps the ids and user_ids of
    all task rows, every task row with another id and all user rows. *)
Theorem update_keeps_other_rows (db : Database) (fl : list bool)
    (uid tid : Z) (bu : UpdateUser.t) (bt : UpdateTask.t) :
  let ru := serve slugify (PUT_user_update uid bu) db fl in
  let rt := serve slugify (PUT_task_update tid bt) db fl in
  (map User.id (users (store ru)) = map User.id (users db)
   /\ map User.username (users (store ru)) = map User.username (users db)
   /\ (forall u, In u (users db) -> User.id u <> uid ->
                 In u (users (store ru)))
   /\ tasks (store ru) = tasks db)
  /\ (map Task.id (tasks (store rt)) = map Task.id (tasks db)
      /\ map Task.user_id (tasks (store rt)) = map Task.user_id (tasks db)
      /\ (forall t, In t (tasks db) -> Task.id t <> tid ->
                    In t (tasks (store rt)))
      /\ users (store rt) = users db).
Proof.
  cbv zeta. rewrite !serve_store. split.
  - destruct (succeeded _); [|tauto].
    cbn [effect run snd users tasks].
    split; [apply map_id_updated_users|].
    split; [apply map_id_updated_users|]. split; [|reflexivity].
    intros u Hu Hid. apply in_map_iff. exists u.
    apply Z.eqb_neq in Hid. rewrite Hid. auto.
  - destruct (succeeded _); [|tauto].
    cbn [effect run snd users tasks].
    split; [apply map_id_updated_tasks|].
    split; [apply map_id_updated_tasks|]. split; [|reflexivity].
    intros t Ht Hid. apply in_map_iff. exists t.
    apply Z.eqb_neq in Hid. rewrite Hid. auto.
Qed.

(** X12: no request makes two rows of a table share an id: if the ids of
    the user rows and of the task rows are pairwise distinct before a
    request, they are after it, whatever the request and whatever fails. *)
Theorem request_keeps_keys_unique (req : Request) (db : Database)
    (fl : list bool)
    (Hkeys : keys_unique db) :
  keys_unique (store (serve slugify req db fl)).
Proof.
  rewrite serve_store. destruct (succeeded _); [|exact Hkeys].
  destruct Hkeys as [Hu Ht]. unfold keys_unique.
  destruct req; cbn [effect run snd users tasks]; split;
    try assumption.
  - now apply NoDup_map_fresh.
  - now rewrite (proj1 (map_id_updated_users _ _ _ _ _ _)).
  - now apply NoDup_map_filter.
  - now apply NoDup_map_filter.
  - now apply NoDup_map_fresh.
  - now rewrite (proj1 (map_id_updated_tasks _ _ _ _ _)).
  - now apply NoDup_map_filter.
Qed.

(** X13: no request leaves a task without its user: if every task row
    references a user row before a request, every task row does after it,
    whatever the request and whatever fails. *)
Theorem request_keeps_tasks_owned (req : Request) (db : Database)
    (fl : list bool)
    (Howned : tasks_owned db) :
  tasks_owned (store (serve slugify req db fl)).
Proof.
  pose proof (create_task_succeeds_for_user db fl) as Hcreate.
  rewrite serve_store.
  destruct (succeeded (response (serve slugify req db fl))) eqn:Hok;
    [|exact Howned].
  unfold tasks_owned, user_exists in *.
  destruct req; cbn [effect run snd users tasks]; try exact Howned.
  - intros t Ht. destruct (Howned t Ht) as [u [Hu Hid]].
    exists u. split; [apply in_or_app; now left | exact Hid].
  - intros t Ht. destruct (Howned t Ht) as [u [Hu Hid]].
    eexists. split; [apply in_map; exact Hu|].
    destruct (User.id u =? user_id); exact Hid.
  - intros t Ht. apply filter_In in Ht. destruct Ht as [Ht Hother].
    destruct (Howned t Ht) as [u [Hu Hid]].
    exists u. split; [|exact Hid].
    apply filter_In. split; [exact Hu|]. now rewrite Hid.
  - intros t Ht. apply in_app_or in Ht. destruct Ht as [Ht | [<- | []]].
    + now apply Howned.
    + cbn. now apply Hcreate.
  - intros t Ht. apply in_map_iff in Ht. destruct Ht as [t0 [<- Ht0]].
    destruct (Howned t0 Ht0) as [u [Hu Hid]]. exists u. split; [exact Hu|].
    destruct (Task.id t0 =? task_id); exact Hid.
  - intros t Ht. apply filter_In in Ht. now apply Howned.
Qed.

(** X17: create-user stores the slug without probing for it, so after two
    successful create-user requests with the same firstname two rows hold
    the same slug; probing for that slug afterwards raises
    [MultipleResultsFound] instead of returning a value. *)
Theorem same_firstname_twice_breaks_probe (db : Database)
    (fl1 fl2 : list bool) (b1 b2 : CreateUser.t) (uuid4 : nat -> Z)
    (fuel : nat)
    (Hsame : CreateUser.firstname b1 = CreateUser.firstname b2)
    (Hfirst : succeeded (response
                (serve slugify (POST_user_create b1) db fl1)) = true)
    (Hsecond : succeeded (response
                 (serve slugify (POST_user_create b2)
                    (store (serve slugify (POST_user_create b1) db fl1))
                    fl2)) = true) :
  let db2 := store (serve slugify (POST_user_create b2)
                      (store (serve slugify (POST_user_create b1) db fl1))
                      fl2) in
  (2 <= List.length
          (slug_holders db2 (slugify (CreateUser.firstname b1))))%nat
  /\ fst (generate_unique_slug (S fuel) uuid4
            (slugify (CreateUser.firstname b1)) (open_session db2 []))
     = Raise MultipleResultsFound.
Proof.
  cbv zeta.
  assert (Hheld : (2 <= List.length
            (slug_holders
               (store (serve slugify (POST_user_create b2)
                         (store (serve slugify (POST_user_create b1) db fl1))
                         fl2))
               (slugify (CreateUser.firstname b1))))%nat).
  { rewrite (serve_store (POST_user_create b2)), Hsecond.
    rewrite (serve_store (POST_user_create b1)), Hfirst.
    cbn [effect run snd users tasks].
    unfold slug_holders. cbn [users].
    rewrite !filter_app, !length_app. cbn [filter User.slug].
    rewrite <- Hsame, String.eqb_refl. cbn. lia. }
  split; [exact Hheld|].
  apply (loop_contract User.slug select_User_where_slug
           generate_unique_slug_from
           (fun _ _ => eq_refl) (fun _ => eq_refl) (fun _ _ _ _ => eq_refl)
           (fun _ _ _ _ _ => eq_refl) uuid4 _ _ [] 0%nat eq_refl).
  - intros j Hj. lia.
  - exact Hheld.
  - lia.
Qed.

End MoreHandlers.

(** * Further properties of backend/db.py *)

Section ProbingFrame.

Variable column : User.t -> string.
Variable select_where : string -> Statement (list User.t).
Variable loop : nat -> (nat -> Z) -> nat -> Z -> string -> io (option string).

Hypothesis run_select : forall v db,
  run (select_where v) db
  = (filter (fun u => String.eqb (column u) v) (users db), db).

Hypothesis bindable_select : forall v, bindable (select_where v) = true.

Hypothesis loop_O : forall uuid4 calls counter base,
  loop O uuid4 calls counter base = ret None.

Hypothesis loop_S : forall fuel uuid4 calls counter base,
  loop (S fuel) uuid4 calls counter base
  = (let v := if 1 <? counter
              then (base ++ "-" ++ short_suffix (uuid4 calls))%string
              else base in
     let calls' := if 1 <? counter then S calls else calls in
     result <- execute (select_where v) ;;
     found <- scalar_one_or_none result ;;
     match found with
     | None => ret (Some v)
     | Some _ => loop fuel uuid4 calls' (counter + 1) base
     end).

(** The loop only reads: the tables of the session are those it started
    with, whatever it returns or raises, and a schedule that is empty stays
    empty. *)
Lemma loop_only_reads (uuid4 : nat -> Z) (base : string) (fuel : nat) :
  forall calls counter s o s',
    loop fuel uuid4 calls counter base s = (o, s') ->
    working s' = working s /\ committed s' = committed s
    /\ (faults s = [] -> faults s' = []).
Proof.
  induction fuel as [|fuel IH]; intros calls counter s o s' H.
  - rewrite loop_O in H. injection H as _ <-. auto.
  - rewrite loop_S in H. cbv zeta in H.
    remember (if 1 <? counter
              then (base ++ "-" ++ short_suffix (uuid4 calls))%string
              else base) as v eqn:Ev.
    remember (if 1 <? counter then S calls else calls) as calls' eqn:Ec.
    clear Ev Ec.
    unfold bind at 1 in H. unfold execute, take_fault in H.
    rewrite bindable_select in H.
    destruct s as [c w fl tr]. cbn in H |- *.
    destruct fl as [|[] fl]; cbn in H.
    + rewrite run_select in H. unfold bind at 1 in H.
      destruct (filter _ (users w)) as [|x [|y l]]; cbn in H.
      * injection H as _ <-. auto.
      * apply IH in H. cbn in H. exact H.
      * injection H as _ <-. auto.
    + injection H as _ <-. cbn. repeat split; discriminate.
    + rewrite run_select in H. unfold bind at 1 in H.
      destruct (filter _ (users w)) as [|x [|y l]]; cbn in H.
      * injection H as _ <-. cbn. repeat split; discriminate.
      * apply IH in H. cbn in H. destruct H as [Hw [Hc _]].
        repeat split; [exact Hw | exact Hc | discriminate].
      * injection H as _ <-. cbn. repeat split; discriminate.
Qed.

(** With nothing scheduled to fail, what the loop returns depends on the
    tables alone. *)
Lemma loop_unscheduled (uuid4 : nat -> Z) (base : string) (fuel : nat) :
  forall calls counter s1 s2,
    working s1 = working s2 -> faults s1 = [] -> faults s2 = [] ->
    fst (loop fuel uuid4 calls counter base s1)
    = fst (loop fuel uuid4 calls counter base s2).
Proof.
  induction fuel as [|fuel IH]; intros calls counter s1 s2 Hw H1 H2.
  - rewrite !loop_O. reflexivity.
  - rewrite !loop_S. cbv zeta.
    remember (if 1 <? counter
              then (base ++ "-" ++ short_suffix (uuid4 calls))%string
              else base) as v eqn:Ev.
    remember (if 1 <? counter then S calls else calls) as calls' eqn:Ec.
    clear Ev Ec.
    unfold bind, execute, take_fault. rewrite bindable_select.
    destruct s1 as [c1 w1 f1 t1], s2 as [c2 w2 f2 t2].
    cbn in Hw, H1, H2. subst. cbn.
    rewrite run_select.
    destruct (filter _ (users w2)) as [|x [|y l]]; cbn; try reflexivity.
    apply IH; reflexivity.
Qed.

End ProbingFrame.

(** X14: the probing loops only read: whatever the schedule, the draws and
    the base, [generate_unique_slug] and [generate_unique_username] leave the
    tables of the session, committed and in flight, as they found them. *)
Theorem probing_only_reads (fuel : nat) (uuid4 : nat -> Z) (base : string)
    (s : AsyncSession) :
  (working (snd (generate_unique_slug fuel uuid4 base s)) = working s
   /\ committed (snd (generate_unique_slug fuel uuid4 base s)) = committed s)
  /\ (working (snd (generate_unique_username fuel uuid4 base s)) = working s
      /\ committed (snd (generate_unique_username fuel uuid4 base s))
         = committed s).
Proof.
  split.
  - destruct (generate_unique_slug fuel uuid4 base s) as [o s'] eqn:E.
    apply (loop_only_reads User.slug select_User_where_slug
             generate_unique_slug_from
             (fun _ _ => eq_refl) (fun _ => eq_refl)
             (fun _ _ _ _ => eq_refl)
             (fun _ _ _ _ _ => eq_refl)) in E.
    cbn [snd]. tauto.
  - destruct (generate_unique_username fuel uuid4 base s) as [o s'] eqn:E.
    apply (loop_only_reads User.username select_User_where_username
             generate_unique_username_from
             (fun _ _ => eq_refl) (fun _ => eq_refl)
             (fun _ _ _ _ => eq_refl)
             (fun _ _ _ _ _ => eq_refl)) in E.
    cbn [snd]. tauto.
Qed.

Lemma slug_probe_frame (fuel : nat) (uuid4 : nat -> Z) (base : string)
    (s : AsyncSession) (o : outcome (option string)) (s' : AsyncSession) :
  generate_unique_slug fuel uuid4 base s = (o, s') ->
  faults s = [] ->
  o = fst (generate_unique_slug fuel uuid4 base (open_session (working s) []))
  /\ working s' = working s /\ committed s' = committed s /\ faults s' = [].
Proof.
  intros E Hf. unfold generate_unique_slug in *.
  pose proof (loop_only_reads User.slug select_User_where_slug
                generate_unique_slug_from
                (fun _ _ => eq_refl) (fun _ => eq_refl)
             (fun _ _ _ _ => eq_refl)
                (fun _ _ _ _ _ => eq_refl) _ _ _ _ _ _ _ _ E) as [Hw [Hc Hf']].
  pose proof (loop_unscheduled User.slug select_User_where_slug
                generate_unique_slug_from
                (fun _ _ => eq_refl) (fun _ => eq_refl)
             (fun _ _ _ _ => eq_refl)
                (fun _ _ _ _ _ => eq_refl) uuid4 base fuel 0%nat 1
                s (open_session (working s) []) eq_refl Hf eq_refl) as Ho.
  rewrite E in Ho. cbn [fst] in Ho. auto.
Qed.

Lemma username_probe_frame (fuel : nat) (uuid4 : nat -> Z) (base : string)
    (s : AsyncSession) (o : outcome (option string)) (s' : AsyncSession) :
  generate_unique_username fuel uuid4 base s = (o, s') ->
  faults s = [] ->
  o = fst (generate_unique_username fuel uuid4 base
             (open_session (working s) []))
  /\ working s' = working s /\ committed s' = committed s /\ faults s' = [].
Proof.
  intros E Hf. unfold generate_unique_username in *.
  pose proof (loop_only_reads User.username select_User_where_username
                generate_unique_username_from
                (fun _ _ => eq_refl) (fun _ => eq_refl)
             (fun _ _ _ _ => eq_refl)
                (fun _ _ _ _ _ => eq_refl) _ _ _ _ _ _ _ _ E) as [Hw [Hc Hf']].
  pose proof (loop_unscheduled User.username select_User_where_username
                generate_unique_username_from
                (fun _ _ => eq_refl) (fun _ => eq_refl)
             (fun _ _ _ _ => eq_refl)
                (fun _ _ _ _ _ => eq_refl) uuid4 base fuel 0%nat 1
                s (open_session (working s) []) eq_refl Hf eq_refl) as Ho.
  rewrite E in Ho. cbn [fst] in Ho. auto.
Qed.

Lemma no_task_of_next_user (db : Database) :
  tasks_owned db ->
  filter (fun t => Task.user_id t =? next_id (map User.id (users db)))
         (tasks db) = [].
Proof.
  intros Howned. apply filter_none. intros t Ht. apply Z.eqb_neq.
  destruct (Howned t Ht) as [u [Hu Hid]].
  pose proof (next_id_above (map User.id (users db)) (User.id u)
                (in_map User.id _ _ Hu)). lia.
Qed.

(** X15: with no store failure, [test_data_operations] stores one user,
    under the username and the slug that its two probes of "testuser"
    return, then one task of that user, each under the next free id (the
    user's fitting in 64 bits, as an id the store assigns does), and reports
    that user with its tasks; on a store without orphan tasks the reported
    count is 1. *)
Theorem test_data_operations_stores_probed (fuel : nat)
    (uuid4_username uuid4_slug : nat -> Z) (db : Database)
    (name slug : string)
    (Hname : fst (generate_unique_username fuel uuid4_username "testuser"
                    (open_session db [])) = Return (Some name))
    (Hslug : fst (generate_unique_slug fuel uuid4_slug "testuser"
                    (open_session db [])) = Return (Some slug))
    (Hkey : int64 (next_id (map User.id (users db))) = true)
    (Howned : tasks_owned db) :
  let key := next_id (map User.id (users db)) in
  test_data_operations fuel uuid4_username uuid4_slug db []
  = (Return (Some (user_and_tasks name 1)),
     {| users := users db ++ [test_user key name slug];
        tasks := tasks db ++
                 [test_task (next_id (map Task.id (tasks db))) key] |}).
Proof.
  cbv zeta.
  unfold test_data_operations, test_data_operations_body, try_except.
  cbv zeta. unfold bind at 1.
  destruct (generate_unique_username fuel uuid4_username "testuser"
              (open_session db [])) as [o1 s1] eqn:E1.
  destruct (username_probe_frame _ _ _ _ _ _ E1 eq_refl)
    as [Ho1 [Hw1 [Hc1 Hf1]]].
  clear Ho1. cbn [fst] in Hname. subst o1.
  unfold bind at 1.
  destruct (generate_unique_slug fuel uuid4_slug "testuser" s1)
    as [o2 s2] eqn:E2.
  destruct (slug_probe_frame _ _ _ _ _ _ E2 Hf1) as [Ho2 [Hw2 [Hc2 Hf2]]].
  rewrite Hw1 in Ho2. cbn [working open_session] in Ho2.
  rewrite Hslug in Ho2. subst o2.
  destruct s2 as [c2 w2 f2 t2]. cbn in Hw2, Hc2, Hf2.
  rewrite Hw1 in Hw2. rewrite Hc1 in Hc2. cbn in Hw2, Hc2. subst.
  pose proof (eq_refl : int64 30 = true) as H30.
  pose proof (eq_refl : int64 1 = true) as H1.
  unfold bind, add_User, add_Task, execute, commit, take_fault,
    scalar_one_or_none, scalars_all, ret. cbn.
  repeat progress (in_range; cbn).
  rewrite (filter_app _ (users db)). cbn. rewrite Z.eqb_refl.
  rewrite (filter_none _ (users db)).
  - cbn. repeat progress (in_range; cbn).
    rewrite (filter_app _ (tasks db)). cbn. rewrite Z.eqb_refl.
    rewrite (no_task_of_next_user db Howned). reflexivity.
  - intros v Hv. apply Z.eqb_neq.
    pose proof (next_id_above (map User.id (users db)) (User.id v)
                  (in_map User.id _ _ Hv)). lia.
Qed.

(** X16: [test_data_operations] commits the user before it adds the task,
    and does not roll back: when "testuser" is free and the store fails at
    the insert of the task, or at the commit after it, the exception is
    raised again, no rollback is issued in the session, and the test user
    stays in the store without a task. *)
Theorem test_data_operations_keeps_user_on_failure (fuel : nat)
    (uuid4_username uuid4_slug : nat -> Z) (db : Database)
    (fl : list bool)
    (Hname : username_holders db "testuser" = [])
    (Hslug : slug_holders db "testuser" = [])
    (Hkey : int64 (next_id (map User.id (users db))) = true)
    (Hfail : fl = [false; false; false; false; true]
             \/ fl = [false; false; false; false; false; true]) :
  test_data_operations (S fuel) uuid4_username uuid4_slug db fl
  = (Raise DBAPIError,
     {| users := users db ++
                 [test_user (next_id (map User.id (users db)))
                            "testuser" "testuser"];
        tasks := tasks db |})
  /\ existsb is_rollback
       (trace (snd (test_data_operations_body (S fuel) uuid4_username
                      uuid4_slug (open_session db fl))))
     = false.
Proof.
  unfold username_holders in Hname. unfold slug_holders in Hslug.
  pose proof (eq_refl : int64 30 = true) as H30.
  pose proof (eq_refl : int64 1 = true) as H1.
  unfold test_data_operations, test_data_operations_body, try_except,
    generate_unique_username, generate_unique_slug.
  destruct Hfail as [-> | ->];
    unfold bind, add_User, add_Task, execute, commit, take_fault,
      scalar_one_or_none, logger_error, raise, ret, record; cbn;
    rewrite Hname; cbn; rewrite Hslug; cbn;
    repeat progress (in_range; cbn);
    split; reflexivity.
Qed.

(** X18: two users named testuser stop the startup check: the probe for the
    username finds several rows and raises, [test_data_operations] raises
    the exception again, and nothing is stored. *)
Theorem test_data_operations_raises_on_duplicates (fuel : nat)
    (uuid4_username uuid4_slug : nat -> Z) (db : Database)
    (fl : list bool)
    (Hheld : (2 <= List.length (username_holders db "testuser"))%nat)
    (Hcalm : calm fl) :
  test_data_operations (S fuel) uuid4_username uuid4_slug db fl
  = (Raise MultipleResultsFound, db).
Proof.
  unfold username_holders in Hheld.
  unfold test_data_operations, test_data_operations_body, try_except,
    generate_unique_username.
  unfold bind, execute, take_fault, scalar_one_or_none, logger_error,
    raise, ret.
  next_is_calm fl Hcalm; cbn;
    (destruct (filter _ (users db)) as [|x [|y l]];
     [cbn in Hheld; lia | cbn in Hheld; lia | reflexivity]).
Qed.

(** ** The further theorems at concrete requests *)

Lemma alice_exists : user_exists alice_db 1.
Proof. exists alice_row. split; [now left | reflexivity]. Defined.

Lemma nobody_is_7 : ~ user_exists alice_db 7.
Proof. intros [u [[<- | []] H]]. discriminate H. Defined.

Lemma no_task_is_7 : ~ task_exists alice_db 7.
Proof. intros [t [[<- | []] H]]. discriminate H. Defined.

Lemma alice_db_owned : tasks_owned alice_db.
Proof. intros t [<- | []]. exact alice_exists. Defined.

Lemma alice_db_keys : keys_unique alice_db.
Proof.
  split; cbn; (constructor; [intros [] | constructor]).
Defined.

Lemma missing_target_answers_500_witness :
  response (serve ascii_slugify (DELETE_user_delete 7) alice_db [])
  = generic_500
  /\ response (serve ascii_slugify (GET_user_tasks 7) alice_db [])
     = generic_500.
Proof.
  pose proof (missing_target_answers_500 ascii_slugify alice_db [] 7 7 bob
                (UpdateTask.mk "T2" "C2" 5) nobody_is_7 no_task_is_7)
    as [Hwrite Hread].
  split; [|exact Hread].
  apply Hwrite. right. left. reflexivity.
Defined.

Lemma tasks_by_user_id_lists_owned_witness :
  response (serve ascii_slugify (GET_user_tasks 1) alice_db [])
  = {| status := 200; content := JSON (TaskList [t1_row]) |}.
Proof.
  exact (proj1 (tasks_by_user_id_lists_owned ascii_slugify alice_db [] 1
                  alice_exists eq_refl eq_refl)).
Defined.

Lemma create_user_then_fetch_witness :
  response (serve ascii_slugify (GET_user_id 1)
              (store (serve ascii_slugify (POST_user_create alice)
                        empty_db [])) [])
  = {| status := 200; content := JSON (UserDict alice_row) |}.
Proof.
  exact (proj2 (create_user_then_fetch ascii_slugify empty_db [] [] alice
                  eq_refl eq_refl eq_refl eq_refl)).
Defined.

Lemma create_task_then_fetch_witness :
  let r := serve ascii_slugify
             (POST_task_create (CreateTask.mk "T2" "C2" 2 1)) alice_db [] in
  response (serve ascii_slugify (GET_user_tasks 1) (store r) [])
  = {| status := 200;
       content := JSON (TaskList [t1_row; Task.mk 2 "T2" "C2" 2 1]) |}.
Proof.
  exact (proj2 (proj2 (create_task_then_fetch ascii_slugify alice_db
                         [] [] [] (CreateTask.mk "T2" "C2" 2 1)
                         alice_exists eq_refl eq_refl eq_refl
                         eq_refl eq_refl eq_refl))).
Defined.

Lemma update_user_then_fetch_witness :
  let r := serve ascii_slugify (PUT_user_update 1 bob) alice_db [] in
  response (serve ascii_slugify (GET_user_id 1) (store r) [])
  = {| status := 200;
       content := JSON (UserDict (User.mk 1 "alice" "Bob" "Roe" 31 "bob")) |}.
Proof.
  exact (proj1 (update_user_then_fetch ascii_slugify alice_db [] [] 1 bob
                  alice_row eq_refl eq_refl eq_refl eq_refl eq_refl)).
Defined.

Lemma delete_task_removes_only_target_witness :
  users (store (serve ascii_slugify (DELETE_task_delete 1) alice_db []))
  = [alice_row].
Proof.
  exact (proj1 (proj2 (delete_task_removes_only_target ascii_slugify
                         alice_db [] 1
                         (ex_intro _ t1_row (conj (or_introl eq_refl) eq_refl))
                         eq_refl eq_refl))).
Defined.

Lemma delete_user_removes_only_target_witness :
  In t1_row (tasks (store (serve ascii_slugify (DELETE_user_delete 1)
                             alice_db []))) <->
  In t1_row (tasks alice_db) /\ Task.user_id t1_row <> 1.
Proof.
  exact (proj2 (delete_user_removes_only_target ascii_slugify alice_db [] 1
                  alice_exists eq_refl eq_refl) t1_row).
Defined.

Lemma request_keeps_keys_unique_witness :
  keys_unique (store (serve ascii_slugify (POST_user_create alice)
                        alice_db [])).
Proof.
  exact (request_keeps_keys_unique ascii_slugify (POST_user_create alice)
           alice_db [] alice_db_keys).
Defined.

Lemma request_keeps_tasks_owned_witness :
  tasks_owned (store (serve ascii_slugify (DELETE_user_delete 1)
                        alice_db [])).
Proof.
  exact (request_keeps_tasks_owned ascii_slugify (DELETE_user_delete 1)
           alice_db [] alice_db_owned).
Defined.

Lemma same_firstname_twice_breaks_probe_witness :
  fst (generate_unique_slug 1 sample_uuid4 "alice"
         (open_session two_alices []))
  = Raise MultipleResultsFound.
Proof.
  exact (proj2 (same_firstname_twice_breaks_probe ascii_slugify empty_db
                  [] [] alice alice sample_uuid4 0 eq_refl eq_refl eq_refl)).
Defined.

Lemma test_data_operations_stores_probed_witness :
  test_data_operations 1 sample_uuid4 sample_uuid4 empty_db []
  = (Return (Some (user_and_tasks "testuser" 1)),
     {| users := [test_user 1 "testuser" "testuser"];
        tasks := [test_task 1 1] |}).
Proof.
  exact (test_data_operations_stores_probed 1 sample_uuid4 sample_uuid4
           empty_db "testuser" "testuser" eq_refl eq_refl eq_refl
           (fun t (H : In t []) => match H with end)).
Defined.

Lemma test_data_operations_keeps_user_on_failure_witness :
  test_data_operations 1 sample_uuid4 sample_uuid4 empty_db
    [false; false; false; false; true]
  = (Raise DBAPIError,
     {| users := [test_user 1 "testuser" "testuser"]; tasks := [] |}).
Proof.
  exact (proj1 (test_data_operations_keeps_user_on_failure 0 sample_uuid4
                  sample_uuid4 empty_db [false; false; false; false; true]
                  eq_refl eq_refl eq_refl (or_introl eq_refl))).
Defined.

Lemma test_data_operations_raises_on_duplicates_witness :
  test_data_operations 1 sample_uuid4 sample_uuid4 two_testusers []
  = (Raise MultipleResultsFound, two_testusers).
Proof.
  exact (test_data_operations_raises_on_duplicates 0 sample_uuid4
           sample_uuid4 two_testusers [] (le_n 2) eq_refl).
Defined.
